(** * Reflow oven controller (reflowOvenController.ino, v1.9)

    A shallow embedding of the firmware's [setup] and [loop] functions and
    the properties of its two state machines (reflow phases and button
    debounce).

    Conventions of the embedding
    - the target is the AVR based Arduino the shield is built for:
      [unsigned long] and [long] are 32 bits wide, [double] and [float]
      are both IEEE-754 binary32;
    - a 32-bit integer is a [Z] with its wrap-around written out;
    - a [double] is a [spec_float] of the standard library, with the
      operations of [SpecFloat] at precision 24 and maximal exponent 128;
    - every call of [millis()], [analogRead] and
      [thermocouple.readThermocouple] of one pass through [loop] is an
      input of that pass ([Inputs]);
    - the [digitalWrite] calls and what is printed on [Serial] and on the
      [lcd] are recorded in the output log of the state, most recent
      first; [pinMode], [delay], the [begin] calls and the global
      [timerSeconds], which nothing reads, are left out. *)

From Stdlib Require Import ZArith List Bool Lia String.
From Stdlib Require Import Floats.SpecFloat.
Import ListNotations.
Local Open Scope Z_scope.

(** ** 32-bit machine integers *)

Module Word32.

Definition modulus : Z := 2 ^ 32.

(** Reduction to an [unsigned long]. *)
Definition wrap (z : Z) : Z := z mod modulus.

(** [unsigned long] addition and subtraction. *)
Definition add (a b : Z) : Z := wrap (a + b).
Definition sub (a b : Z) : Z := wrap (a - b).

(** Conversion of an [unsigned long] to a [long]. *)
Definition signed (z : Z) : Z :=
  let u := wrap z in if u <? 2 ^ 31 then u else u - modulus.

End Word32.

(** ** The [double] type of the target *)

Definition double : Type := spec_float.

Module Double.

Definition prec : Z := 24.
Definition emax : Z := 128.

(** Conversion of an integer (an [int] constant, or an [unsigned long]
    through a [(float)] cast), rounding to nearest even. *)
Definition of_Z (z : Z) : double := binary_normalize prec emax z 0 false.

Definition sub (a b : double) : double := SFsub prec emax a b.
Definition mul (a b : double) : double := SFmul prec emax a b.
Definition div (a b : double) : double := SFdiv prec emax a b.

(** The C comparisons [a < b], [a <= b], [a >= b] and [a == b]. *)
Definition lt (a b : double) : bool := SFltb a b.
Definition le (a b : double) : bool := SFleb a b.
Definition ge (a b : double) : bool := SFleb b a.
Definition eq (a b : double) : bool := SFeqb a b.

End Double.

(** ** Type definitions of the sketch *)

Inductive reflowPhase_t : Type :=
| REFLOW_PHASE_IDLE
| REFLOW_PHASE_PREHEAT
| REFLOW_PHASE_SOAK
| REFLOW_PHASE_REFLOW
| REFLOW_PHASE_PEAK
| REFLOW_PHASE_COOL
| REFLOW_PHASE_COMPLETE
| REFLOW_PHASE_TOO_HOT
| REFLOW_PHASE_ERROR.

Inductive ovenStatus_t : Type := OVEN_OFF | OVEN_ON.

Inductive button_t : Type := BUTTON_NONE | BUTTON_1 | BUTTON_2.

Inductive debounceState_t : Type :=
| DEBOUNCE_STATE_IDLE
| DEBOUNCE_STATE_CHECK
| DEBOUNCE_STATE_RELEASE.

Definition lcdMessagesReflowPhase (p : reflowPhase_t) : string :=
  match p with
  | REFLOW_PHASE_IDLE => "Ready"
  | REFLOW_PHASE_PREHEAT => "Preheat"
  | REFLOW_PHASE_SOAK => "Soak"
  | REFLOW_PHASE_REFLOW => "Reflow"
  | REFLOW_PHASE_PEAK => "Peak"
  | REFLOW_PHASE_COOL => "Cool"
  | REFLOW_PHASE_COMPLETE => "Complete"
  | REFLOW_PHASE_TOO_HOT => "Wait,hot"
  | REFLOW_PHASE_ERROR => "Error"
  end%string.

(** ** Constants *)

Definition RAMPUP : double := Double.of_Z 3.
Definition ROOM_TEMPERATURE : Z := 50.
Definition SOAK_TEMPERATURE : Z := 150.
Definition SOAK_PERIOD : Z := 90000.
Definition PEAK_TEMPERATURE : Z := 237.
Definition PEAK_PERIOD : Z := 50000.
Definition COOL_TEMPERATURE : Z := 100.

Definition READ_INTERVAL_TIME : Z := 200.
Definition DISPLAY_INTERVAL_TIME : Z := 1000.
Definition DEBOUNCE_PERIOD_MIN : Z := 50.

(** ** Pins and outputs *)

Inductive pin : Type := ssrPin | buzzerPin | ledRedPin.

Inductive level : Type := LOW | HIGH.

Inductive output : Type :=
| PinWrite (p : pin) (v : level)
| SerialTemp (t : double)
| SerialText (msg : string)
| LcdClear
| LcdCursor (col row : Z)
| LcdText (msg : string)
| LcdTemp (t : double)
| LcdByte (b : Z).

Definition is_ssr_write (o : output) : bool :=
  match o with
  | PinWrite ssrPin _ => true
  | _ => false
  end.

(** ** Global variables and the state of the board *)

#[projections(primitive)] Record State : Type := mkState {
  nextRead : Z;
  nextDisplay : Z;
  phaseStartTime : Z;
  temp : double;
  phaseStartTemp : double;
  buzzerPeriod : Z;
  reflowPhase : reflowPhase_t;
  ovenStatus : ovenStatus_t;
  debounceState : debounceState_t;
  lastDebounceTime : Z;
  buttonStatus : button_t;
  ssr : level;
  buzzer : level;
  ledRed : level;
  out : list output
}.

Definition set_nextRead (v : Z) (s : State) : State :=
  mkState v (nextDisplay s) (phaseStartTime s) (temp s) (phaseStartTemp s)
    (buzzerPeriod s) (reflowPhase s) (ovenStatus s) (debounceState s)
    (lastDebounceTime s) (buttonStatus s) (ssr s) (buzzer s) (ledRed s) (out s).

Definition set_nextDisplay (v : Z) (s : State) : State :=
  mkState (nextRead s) v (phaseStartTime s) (temp s) (phaseStartTemp s)
    (buzzerPeriod s) (reflowPhase s) (ovenStatus s) (debounceState s)
    (lastDebounceTime s) (buttonStatus s) (ssr s) (buzzer s) (ledRed s) (out s).

Definition set_phaseStartTime (v : Z) (s : State) : State :=
  mkState (nextRead s) (nextDisplay s) v (temp s) (phaseStartTemp s)
    (buzzerPeriod s) (reflowPhase s) (ovenStatus s) (debounceState s)
    (lastDebounceTime s) (buttonStatus s) (ssr s) (buzzer s) (ledRed s) (out s).

Definition set_temp (v : double) (s : State) : State :=
  mkState (nextRead s) (nextDisplay s) (phaseStartTime s) v (phaseStartTemp s)
    (buzzerPeriod s) (reflowPhase s) (ovenStatus s) (debounceState s)
    (lastDebounceTime s) (buttonStatus s) (ssr s) (buzzer s) (ledRed s) (out s).

Definition set_phaseStartTemp (v : double) (s : State) : State :=
  mkState (nextRead s) (nextDisplay s) (phaseStartTime s) (temp s) v
    (buzzerPeriod s) (reflowPhase s) (ovenStatus s) (debounceState s)
    (lastDebounceTime s) (buttonStatus s) (ssr s) (buzzer s) (ledRed s) (out s).

Definition set_buzzerPeriod (v : Z) (s : State) : State :=
  mkState (nextRead s) (nextDisplay s) (phaseStartTime s) (temp s)
    (phaseStartTemp s) v (reflowPhase s) (ovenStatus s) (debounceState s)
    (lastDebounceTime s) (buttonStatus s) (ssr s) (buzzer s) (ledRed s) (out s).

Definition set_reflowPhase (v : reflowPhase_t) (s : State) : State :=
  mkState (nextRead s) (nextDisplay s) (phaseStartTime s) (temp s)
    (phaseStartTemp s) (buzzerPeriod s) v (ovenStatus s) (debounceState s)
    (lastDebounceTime s) (buttonStatus s) (ssr s) (buzzer s) (ledRed s) (out s).

Definition set_ovenStatus (v : ovenStatus_t) (s : State) : State :=
  mkState (nextRead s) (nextDisplay s) (phaseStartTime s) (temp s)
    (phaseStartTemp s) (buzzerPeriod s) (reflowPhase s) v (debounceState s)
    (lastDebounceTime s) (buttonStatus s) (ssr s) (buzzer s) (ledRed s) (out s).

Definition set_debounceState (v : debounceState_t) (s : State) : State :=
  mkState (nextRead s) (nextDisplay s) (phaseStartTime s) (temp s)
    (phaseStartTemp s) (buzzerPeriod s) (reflowPhase s) (ovenStatus s) v
    (lastDebounceTime s) (buttonStatus s) (ssr s) (buzzer s) (ledRed s) (out s).

Definition set_lastDebounceTime (v : Z) (s : State) : State :=
  mkState (nextRead s) (nextDisplay s) (phaseStartTime s) (temp s)
    (phaseStartTemp s) (buzzerPeriod s) (reflowPhase s) (ovenStatus s)
    (debounceState s) v (buttonStatus s) (ssr s) (buzzer s) (ledRed s) (out s).

Definition set_buttonStatus (v : button_t) (s : State) : State :=
  mkState (nextRead s) (nextDisplay s) (phaseStartTime s) (temp s)
    (phaseStartTemp s) (buzzerPeriod s) (reflowPhase s) (ovenStatus s)
    (debounceState s) (lastDebounceTime s) v (ssr s) (buzzer s) (ledRed s) (out s).

Definition set_pin (p : pin) (v : level) (s : State) : State :=
  mkState (nextRead s) (nextDisplay s) (phaseStartTime s) (temp s)
    (phaseStartTemp s) (buzzerPeriod s) (reflowPhase s) (ovenStatus s)
    (debounceState s) (lastDebounceTime s) (buttonStatus s)
    (match p with ssrPin => v | _ => ssr s end)
    (match p with buzzerPin => v | _ => buzzer s end)
    (match p with ledRedPin => v | _ => ledRed s end)
    (out s).

Definition emit (o : output) (s : State) : State :=
  mkState (nextRead s) (nextDisplay s) (phaseStartTime s) (temp s)
    (phaseStartTemp s) (buzzerPeriod s) (reflowPhase s) (ovenStatus s)
    (debounceState s) (lastDebounceTime s) (buttonStatus s)
    (ssr s) (buzzer s) (ledRed s) (o :: out s).

(** [digitalWrite(p, v)]: the pin takes the level, and the call is logged. *)
Definition digitalWrite (p : pin) (v : level) (s : State) : State :=
  emit (PinWrite p v) (set_pin p v s).

(** [millis()]: the low 32 bits of the uptime in milliseconds. *)
Definition millis (uptime : Z) : Z := Word32.wrap uptime.

(** What the environment answers during one pass through [loop]. *)
Record Inputs : Type := mkInputs {
  ms_read : Z;      (* uptime at millis() of the sensor timer test *)
  tc_read : double; (* thermocouple.readThermocouple(CELSIUS), when called *)
  ms_display : Z;   (* uptime at millis() of the display timer test *)
  ms_phase : Z;     (* uptime at the first millis() reached in the phase switch *)
  ms_entry : Z;     (* uptime at the millis() that follows a period test there *)
  adc : Z;          (* analogRead(buttonPin) *)
  ms_debounce : Z   (* uptime at millis() in the debounce switch *)
}.

(** ** The sketch *)

(** State of the globals when [setup] starts: C zero-initialisation. *)
Definition power_on : State :=
  mkState 0 0 0 (S754_zero false) (S754_zero false) 0
    REFLOW_PHASE_IDLE OVEN_OFF DEBOUNCE_STATE_IDLE 0 BUTTON_NONE
    LOW LOW LOW [].

(** [setup()]; [t1] and [t2] are the uptimes at its two [millis()] calls. *)
Definition setup (t1 t2 : Z) : State :=
  let s := power_on in
  let s := digitalWrite ssrPin LOW s in
  let s := digitalWrite buzzerPin LOW s in
  let s := digitalWrite ledRedPin LOW s in
  let s := digitalWrite buzzerPin HIGH s in
  let s := emit LcdClear s in
  let s := emit (LcdText "Reflow") s in
  let s := emit (LcdCursor 0 1) s in
  let s := emit (LcdText "Oven 1.9") s in
  let s := digitalWrite buzzerPin LOW s in
  let s := emit LcdClear s in
  let s := digitalWrite ledRedPin HIGH s in
  let s := set_nextRead (millis t1) s in
  set_nextDisplay (millis t2) s.

(** The three fault codes of the MAX31855 driver.  Its header is not
    among the sources, so the codes are parameters of the development. *)
Class Thermocouple : Type := {
  FAULT_OPEN : double;
  FAULT_SHORT_GND : double;
  FAULT_SHORT_VCC : double
}.

Section Controller.

Context {tc : Thermocouple}.

(** [(temp == FAULT_OPEN) || (temp == FAULT_SHORT_GND) ||
    (temp == FAULT_SHORT_VCC)] *)
Definition thermocoupleProblem (t : double) : bool :=
  Double.eq t FAULT_OPEN || Double.eq t FAULT_SHORT_GND
  || Double.eq t FAULT_SHORT_VCC.

(** First block of [loop]: the sensor timer. *)
Definition readSensor (i : Inputs) (s : State) : State :=
  if millis (ms_read i) >? nextRead s then
    let s := set_nextRead (Word32.add (nextRead s) READ_INTERVAL_TIME) s in
    let s := set_temp (tc_read i) s in
    if thermocoupleProblem (temp s) then
      let s := set_reflowPhase REFLOW_PHASE_ERROR s in
      set_ovenStatus OVEN_OFF s
    else s
  else s.

(** Second block of [loop]: the display timer. *)
Definition refreshDisplay (i : Inputs) (s : State) : State :=
  if millis (ms_display i) >? nextDisplay s then
    let s :=
      set_nextDisplay (Word32.add (nextDisplay s) DISPLAY_INTERVAL_TIME) s in
    let s :=
      match ovenStatus s with
      | OVEN_ON => emit (SerialTemp (temp s)) s
      | OVEN_OFF => s
      end in
    let s := emit LcdClear s in
    let s := emit (LcdText (lcdMessagesReflowPhase (reflowPhase s))) s in
    let s := emit (LcdCursor 0 1) s in
    match reflowPhase s with
    | REFLOW_PHASE_ERROR => emit (LcdText "TC Error!") s
    | _ =>
        let s := emit (LcdTemp (temp s)) s in
        let s := emit (LcdByte 0) s in
        emit (LcdText "C ") s
    end
  else s.

(** [(t - t0) < ((float)elapsed * RAMPUP / 1000.0)] *)
Definition underRamp (t t0 : double) (elapsed : Z) : bool :=
  Double.lt
    (Double.sub t t0)
    (Double.div (Double.mul (Double.of_Z elapsed) RAMPUP) (Double.of_Z 1000)).

(** [(temp - phaseStartTemp) <
     ((float)(millis() - phaseStartTime) * RAMPUP / 1000.0)],
    [now] being the value of that [millis()]. *)
Definition belowRamp (now : Z) (s : State) : bool :=
  underRamp (temp s) (phaseStartTemp s) (Word32.sub now (phaseStartTime s)).

(** [digitalWrite(ssrPin, c ? HIGH : LOW)] as the if/else of the sketch. *)
Definition heat (c : bool) (s : State) : State :=
  if c then digitalWrite ssrPin HIGH s else digitalWrite ssrPin LOW s.

(** Third block of [loop]: the reflow state machine. *)
Definition reflowStateMachine (i : Inputs) (s : State) : State :=
  match reflowPhase s with
  | REFLOW_PHASE_IDLE =>
      let s := set_ovenStatus OVEN_OFF s in
      if Double.ge (temp s) (Double.of_Z ROOM_TEMPERATURE) then
        set_reflowPhase REFLOW_PHASE_TOO_HOT s
      else
        match buttonStatus s with
        | BUTTON_1 =>
            let s := emit (SerialText "temp") s in
            let s := set_reflowPhase REFLOW_PHASE_PREHEAT s in
            let s := set_phaseStartTime (millis (ms_phase i)) s in
            set_phaseStartTemp (temp s) s
        | _ => s
        end
  | REFLOW_PHASE_PREHEAT =>
      let s := set_ovenStatus OVEN_ON s in
      if Double.ge (temp s) (Double.of_Z SOAK_TEMPERATURE) then
        let s := set_phaseStartTime (millis (ms_phase i)) s in
        let s := set_phaseStartTemp (temp s) s in
        set_reflowPhase REFLOW_PHASE_SOAK s
      else
        heat (belowRamp (millis (ms_phase i)) s) s
  | REFLOW_PHASE_SOAK =>
      let s := set_ovenStatus OVEN_ON s in
      if millis (ms_phase i) >? Word32.add (phaseStartTime s) SOAK_PERIOD then
        let s := set_phaseStartTime (millis (ms_entry i)) s in
        let s := set_phaseStartTemp (temp s) s in
        set_reflowPhase REFLOW_PHASE_REFLOW s
      else
        heat (Double.lt (temp s) (Double.of_Z SOAK_TEMPERATURE)) s
  | REFLOW_PHASE_REFLOW =>
      let s := set_ovenStatus OVEN_ON s in
      if Double.ge (temp s) (Double.of_Z PEAK_TEMPERATURE) then
        let s := set_phaseStartTime (millis (ms_phase i)) s in
        let s := set_phaseStartTemp (temp s) s in
        set_reflowPhase REFLOW_PHASE_PEAK s
      else
        heat (belowRamp (millis (ms_phase i)) s) s
  | REFLOW_PHASE_PEAK =>
      let s := set_ovenStatus OVEN_ON s in
      if millis (ms_phase i) >? Word32.add (phaseStartTime s) PEAK_PERIOD then
        let s := digitalWrite ssrPin LOW s in
        let s := set_ovenStatus OVEN_OFF s in
        let s := set_phaseStartTime (millis (ms_entry i)) s in
        let s := set_phaseStartTemp (temp s) s in
        set_reflowPhase REFLOW_PHASE_COOL s
      else
        heat (Double.lt (temp s) (Double.of_Z PEAK_TEMPERATURE)) s
  | REFLOW_PHASE_COOL =>
      let s := set_ovenStatus OVEN_OFF s in
      if Double.le (temp s) (Double.of_Z COOL_TEMPERATURE) then
        let s := set_buzzerPeriod (Word32.add (millis (ms_phase i)) 1000) s in
        let s := digitalWrite buzzerPin HIGH s in
        set_reflowPhase REFLOW_PHASE_COMPLETE s
      else s
  | REFLOW_PHASE_COMPLETE =>
      let s := set_ovenStatus OVEN_OFF s in
      if millis (ms_phase i) >? buzzerPeriod s then
        let s := digitalWrite buzzerPin LOW s in
        set_reflowPhase REFLOW_PHASE_IDLE s
      else s
  | REFLOW_PHASE_TOO_HOT =>
      let s := set_ovenStatus OVEN_OFF s in
      if Double.lt (temp s) (Double.of_Z ROOM_TEMPERATURE) then
        set_reflowPhase REFLOW_PHASE_IDLE s
      else s
  | REFLOW_PHASE_ERROR =>
      let s := set_ovenStatus OVEN_OFF s in
      if thermocoupleProblem (temp s) then
        set_reflowPhase REFLOW_PHASE_ERROR s
      else
        set_reflowPhase REFLOW_PHASE_IDLE s
  end.

(** Fourth block of [loop]: a validated press cancels a running process. *)
Definition cancelCheck (s : State) : State :=
  match buttonStatus s with
  | BUTTON_1 =>
      match ovenStatus s with
      | OVEN_ON =>
          let s := set_ovenStatus OVEN_OFF s in
          let s := digitalWrite ssrPin LOW s in
          set_reflowPhase REFLOW_PHASE_IDLE s
      | OVEN_OFF => s
      end
  | _ => s
  end.

(** Fifth block of [loop]: the button debounce state machine.
    [lastDebounceTime] is a [long]; the difference with [millis()] is
    taken as [unsigned long]. *)
Definition debounce (i : Inputs) (s : State) : State :=
  match debounceState s with
  | DEBOUNCE_STATE_IDLE =>
      let s := set_buttonStatus BUTTON_NONE s in
      if adc i =? 0 then
        let s :=
          set_lastDebounceTime (Word32.signed (millis (ms_debounce i))) s in
        set_debounceState DEBOUNCE_STATE_CHECK s
      else s
  | DEBOUNCE_STATE_CHECK =>
      if adc i =? 0 then
        if Word32.sub (millis (ms_debounce i)) (lastDebounceTime s)
           >? DEBOUNCE_PERIOD_MIN
        then set_debounceState DEBOUNCE_STATE_RELEASE s
        else s
      else set_debounceState DEBOUNCE_STATE_IDLE s
  | DEBOUNCE_STATE_RELEASE =>
      if adc i >? 0 then
        let s := set_buttonStatus BUTTON_1 s in
        set_debounceState DEBOUNCE_STATE_IDLE s
      else s
  end.

(** Last block of [loop]: make sure the SSR is low. *)
Definition ensureSsrLow (s : State) : State :=
  match ovenStatus s with
  | OVEN_OFF => digitalWrite ssrPin LOW s
  | OVEN_ON => s
  end.

(** One pass through [loop()]. *)
Definition loop (i : Inputs) (s : State) : State :=
  let s := readSensor i s in
  let s := refreshDisplay i s in
  let s := reflowStateMachine i s in
  let s := cancelCheck s in
  let s := debounce i s in
  ensureSsrLow s.

(** Successive passes, first input first. *)
Fixpoint run (s : State) (l : list Inputs) : State :=
  match l with
  | [] => s
  | i :: l' => run (loop i s) l'
  end.

(** The states the board can be in between two passes. *)
Inductive reachable : State -> Prop :=
| reachable_setup : forall t1 t2, reachable (setup t1 t2)
| reachable_loop : forall i s, reachable s -> reachable (loop i s).

End Controller.

(** ** Observations used in the statements *)

(** The phases whose row of the transition table has the oven on. *)
Definition heating (p : reflowPhase_t) : bool :=
  match p with
  | REFLOW_PHASE_PREHEAT | REFLOW_PHASE_SOAK
  | REFLOW_PHASE_REFLOW | REFLOW_PHASE_PEAK => true
  | _ => false
  end.



Section Observations.

Context {tc : Thermocouple}.

(** The sensor timer fires in this pass. *)
Definition readDue (i : Inputs) (s : State) : bool :=
  millis (ms_read i) >? nextRead s.

(** The sensor is read in this pass and answers a fault code. *)
Definition faultRead (i : Inputs) (s : State) : bool :=
  readDue i s && thermocoupleProblem (tc_read i).

(** The temperature the state machine works with in this pass. *)
Definition sampled (i : Inputs) (s : State) : double :=
  if readDue i s then tc_read i else temp s.


(** [buttonStatus] at the end of each pass of a run. *)
Fixpoint events (s : State) (l : list Inputs) : list button_t :=
  match l with
  | [] => []
  | i :: l' => buttonStatus (loop i s) :: events (loop i s) l'
  end.

End Observations.

(** ** Observations of a whole run *)

(** The moves of the phase that one pass can make: the rows of the state
    machine, the fault override and the cancel. *)
Definition edge (p q : reflowPhase_t) : bool :=
  match p, q with
  | REFLOW_PHASE_IDLE,
    (REFLOW_PHASE_IDLE | REFLOW_PHASE_TOO_HOT | REFLOW_PHASE_PREHEAT) => true
  | REFLOW_PHASE_PREHEAT,
    (REFLOW_PHASE_PREHEAT | REFLOW_PHASE_SOAK | REFLOW_PHASE_IDLE) => true
  | REFLOW_PHASE_SOAK,
    (REFLOW_PHASE_SOAK | REFLOW_PHASE_REFLOW | REFLOW_PHASE_IDLE) => true
  | REFLOW_PHASE_REFLOW,
    (REFLOW_PHASE_REFLOW | REFLOW_PHASE_PEAK | REFLOW_PHASE_IDLE) => true
  | REFLOW_PHASE_PEAK,
    (REFLOW_PHASE_PEAK | REFLOW_PHASE_COOL | REFLOW_PHASE_IDLE) => true
  | REFLOW_PHASE_COOL, (REFLOW_PHASE_COOL | REFLOW_PHASE_COMPLETE) => true
  | REFLOW_PHASE_COMPLETE, (REFLOW_PHASE_COMPLETE | REFLOW_PHASE_IDLE) => true
  | REFLOW_PHASE_TOO_HOT, (REFLOW_PHASE_TOO_HOT | REFLOW_PHASE_IDLE) => true
  | REFLOW_PHASE_ERROR, (REFLOW_PHASE_ERROR | REFLOW_PHASE_IDLE) => true
  | _, REFLOW_PHASE_ERROR => true
  | _, _ => false
  end.

(** The temperature an output shows, if it shows one. *)
Definition shownTemp (o : output) : list double :=
  match o with
  | SerialTemp t | LcdTemp t => [t]
  | _ => []
  end.

(** The temperatures printed so far, on [Serial] and on the [lcd]. *)
Definition shownTemps (s : State) : list double := flat_map shownTemp (out s).

(** The levels written to the SSR pin so far. *)
Definition ssrLevel (o : output) : list level :=
  match o with
  | PinWrite ssrPin v => [v]
  | _ => []
  end.

Definition ssrLevels (s : State) : list level := flat_map ssrLevel (out s).

Section Schedule.

Context {tc : Thermocouple}.

(** The display timer fires in this pass. *)
Definition displayDue (i : Inputs) (s : State) : bool :=
  millis (ms_display i) >? nextDisplay s.

(** How many passes of a run read the sensor, and how many refresh the
    display. *)
Fixpoint sensorReads (s : State) (l : list Inputs) : Z :=
  match l with
  | [] => 0
  | i :: l' => (if readDue i s then 1 else 0) + sensorReads (loop i s) l'
  end.

Fixpoint displayRefreshes (s : State) (l : list Inputs) : Z :=
  match l with
  | [] => 0
  | i :: l' => (if displayDue i s then 1 else 0) + displayRefreshes (loop i s) l'
  end.

End Schedule.

(** The levels written to the pin of the red LED so far. *)
Definition ledLevel (o : output) : list level :=
  match o with
  | PinWrite ledRedPin v => [v]
  | _ => []
  end.

Definition ledLevels (s : State) : list level := flat_map ledLevel (out s).

(** The temperatures printed on [Serial] so far. *)
Definition serialTemp (o : output) : list double :=
  match o with
  | SerialTemp t => [t]
  | _ => []
  end.

Definition serialTemps (s : State) : list double :=
  flat_map serialTemp (out s).

(** The texts printed on the [lcd] so far. *)
Definition lcdText (o : output) : list string :=
  match o with
  | LcdText m => [m]
  | _ => []
  end.

Definition lcdTexts (s : State) : list string := flat_map lcdText (out s).

Section Screen.

Context {tc : Thermocouple}.


(** No fault code is a sample the state machine treats as a temperature:
    the sample is a fault code exactly in Error, the oven is off in Error,
    and no temperature printed so far is a fault code. *)
Definition sound (s : State) : Prop :=
  (thermocoupleProblem (temp s) = true <-> reflowPhase s = REFLOW_PHASE_ERROR)
  /\ (ovenStatus s = OVEN_ON -> reflowPhase s <> REFLOW_PHASE_ERROR)
  /\ Forall (fun t => thermocoupleProblem t = false) (shownTemps s).

End Screen.

(** The oven is off and the SSR pin was never written high. *)
Definition neverHeated (s : State) : Prop :=
  heating (reflowPhase s) = false
  /\ ovenStatus s = OVEN_OFF
  /\ ssr s = LOW
  /\ Forall (fun v => v = LOW) (ssrLevels s).

(** ** Concrete scenarios *)

Module Bench.

(** The fault codes used in the scenarios: 10000, 10001 and 10002, as in
    the header of the MAX31855 driver. *)
#[export] Instance max31855 : Thermocouple :=
  {| FAULT_OPEN := Double.of_Z 10000;
     FAULT_SHORT_GND := Double.of_Z 10001;
     FAULT_SHORT_VCC := Double.of_Z 10002 |}.

(** A pass during which every [millis()] answers [t], the sensor reads
    [c] degrees and the button input reads [a]. *)
Definition pass (t c a : Z) : Inputs :=
  mkInputs t (Double.of_Z c) t t t a t.

(** A press of 100 ms and its release, at 25 degrees. *)
Definition press : list Inputs :=
  [pass 1000 25 0; pass 1100 25 0; pass 1200 25 1023].

(** The board after [setup] and one validated press. *)
Definition pressed : State := run (setup 0 0) press.

(** The pass after the press starts the process. *)
Definition started : State := loop (pass 1300 25 1023) pressed.

(** A pass later the oven is on, in Preheat. *)
Definition preheating : State := loop (pass 1400 25 1023) started.

(** The profile up to Peak, entered at 95 s, and a press validated at
    144.7 s, before the 50 s of Peak are over. *)
Definition to_peak_and_press : list Inputs :=
  [pass 2000 150 1023; pass 2100 150 1023; pass 92200 150 1023;
   pass 95000 237 1023;
   pass 144500 237 0; pass 144600 237 0; pass 144700 237 1023].

Definition peak_pressed : State := run preheating to_peak_and_press.

(** A pass whose sensor read answers the open-circuit code. *)
Definition fault_pass (t a : Z) : Inputs := mkInputs t FAULT_OPEN t t t a t.

(** The thermocouple comes off during Preheat. *)
Definition faulted : State := loop (fault_pass 1500 1023) preheating.

(** A second press, validated while the oven preheats. *)
Definition preheat_pressed : State :=
  run preheating [pass 1500 25 0; pass 1600 25 0; pass 1700 25 1023].

(** 150 degrees are reached at 2 s: Soak. *)
Definition soaking : State := loop (pass 2000 150 1023) preheating.

(** The whole profile, switched to Cool at 145.1 s. *)
Definition cooling : State :=
  run preheating
    [pass 2000 150 1023; pass 2100 150 1023; pass 92200 150 1023;
     pass 95000 237 1023; pass 145100 237 1023].

(** The oven is down to 100 degrees at 200 s: Complete. *)
Definition completing : Inputs := pass 200000 100 1023.

(** A press that reads pressed at 1000 ms and 1050 ms and released at
    1051 ms. *)
Definition press_50ms : list Inputs :=
  [pass 1000 25 0; pass 1050 25 0; pass 1051 25 1023].

(** The oven is at 60 degrees when the first sample is taken. *)
Definition hot : State := loop (pass 1000 60 1023) (setup 0 0).

(** Peak, entered at 95 s. *)
Definition peaking : State :=
  run preheating
    [pass 2000 150 1023; pass 2100 150 1023; pass 92200 150 1023;
     pass 95000 237 1023].

(** Complete, entered at 200 s. *)
Definition completed : State := loop completing cooling.

(** A process started 67 s before the millisecond counter rolls over, with
    Soak entered 17 s before it does. *)
Definition late_soak : State :=
  run (setup 0 0)
    [pass 4294900000 25 0; pass 4294900100 25 0; pass 4294900200 25 1023;
     pass 4294900300 25 1023; pass 4294900400 25 1023;
     pass 4294950000 150 1023].

(** The passes of a board left alone for three seconds. *)
Definition untouched : list Inputs :=
  [pass 1000 25 1023; pass 2000 25 1023; pass 3000 25 1023].

End Bench.

(** ** Proof tools *)

(** Reduction of the field accesses and updates, and of nothing else. *)
Ltac fields :=
  cbv beta iota zeta delta
      [nextRead nextDisplay phaseStartTime temp phaseStartTemp buzzerPeriod
       reflowPhase ovenStatus debounceState lastDebounceTime buttonStatus
       ssr buzzer ledRed out
       set_nextRead set_nextDisplay set_phaseStartTime set_temp
       set_phaseStartTemp set_buzzerPeriod set_reflowPhase set_ovenStatus
       set_debounceState set_lastDebounceTime set_buttonStatus set_pin emit
       digitalWrite] in *.

Ltac no_case x :=
  lazymatch x with
  | context [match _ with _ => _ end] => fail
  | _ => idtac
  end.

(** Case analysis on the innermost test the goal is stuck on. *)
Ltac branch :=
  match goal with
  | |- context [match ?x with _ => _ end] => no_case x; destruct x eqn:?
  end.

Ltac cases := fields; repeat (branch; fields; try congruence).

Ltac close := intros; try split; intros; congruence.

Ltac sensor_block := unfold readSensor; cases.
Ltac display_block := unfold refreshDisplay; cases.
Ltac phase_block :=
  unfold reflowStateMachine, heat, belowRamp, underRamp; cases.
Ltac cancel_block := unfold cancelCheck; cases.
Ltac debounce_block := unfold debounce; cases.
Ltac safety_block := unfold ensureSsrLow; cases.

(** The part of the log [l] written after [base]. *)
Ltac written l base :=
  lazymatch l with
  | base => constr:(@nil output)
  | ?x :: ?l' => let p := written l' base in constr:(x :: p)
  end.

(** ** Integer comparisons of the sketch *)

Lemma gtb_true a b : (a >? b) = true <-> b < a.
Proof. rewrite Z.gtb_ltb. apply Z.ltb_lt. Qed.

Lemma gtb_false a b : (a >? b) = false <-> a <= b.
Proof. rewrite Z.gtb_ltb. apply Z.ltb_ge. Qed.

(** ** Comparisons of [double] values *)

Lemma compare_cont_swap m n :
  Pos.compare_cont Eq n m = CompOpp (Pos.compare_cont Eq m n).
Proof. symmetry. apply (Pos.compare_cont_antisym m n Eq). Qed.

Lemma SFcompare_antisym a b :
  SFcompare b a = option_map CompOpp (SFcompare a b).
Proof.
  destruct a as [[]|[]| |[] ma ea], b as [[]|[]| |[] mb eb];
    try reflexivity; cbn [SFcompare option_map];
    rewrite (Z.compare_antisym eb ea), (compare_cont_swap ma mb);
    destruct (eb ?= ea); cbn [CompOpp]; try reflexivity;
    destruct (Pos.compare_cont Eq ma mb); reflexivity.
Qed.

Lemma lt_not_ge a b : Double.lt a b = true -> Double.ge a b = false.
Proof.
  unfold Double.lt, Double.ge, SFltb, SFleb.
  rewrite (SFcompare_antisym a b).
  destruct (SFcompare a b) as [[]|]; cbn; congruence.
Qed.


Section Frames.

Context {tc : Thermocouple}.

(** The display block touches its timer and the log only, and never the
    SSR pin. *)
Lemma refreshDisplay_frame i s :
  exists d o,
    refreshDisplay i s =
      mkState (nextRead s) d (phaseStartTime s) (temp s) (phaseStartTemp s)
        (buzzerPeriod s) (reflowPhase s) (ovenStatus s) (debounceState s)
        (lastDebounceTime s) (buttonStatus s) (ssr s) (buzzer s) (ledRed s)
        (o ++ out s)
    /\ filter is_ssr_write o = [].
Proof.
  destruct s as [? ? ? ? ? ? ? ? ? ? ? ? ? ? o0]. display_block.
  all: match goal with
       | |- exists d o, mkState _ ?d' _ _ _ _ _ _ _ _ _ _ _ _ ?l = _ /\ _ =>
           let p := written l o0 in exists d', p; split; reflexivity
       end.
Qed.

(** The debounce block touches its own three variables only. *)
Lemma debounce_frame i s :
  exists d l b,
    debounce i s =
      mkState (nextRead s) (nextDisplay s) (phaseStartTime s) (temp s)
        (phaseStartTemp s) (buzzerPeriod s) (reflowPhase s) (ovenStatus s)
        d l b (ssr s) (buzzer s) (ledRed s) (out s).
Proof.
  destruct s. debounce_block; do 3 eexists; reflexivity.
Qed.

End Frames.

(** One pass through [loop] on a state given by its fields, block after
    block; the display and debounce blocks are replaced by their frames. *)
Ltac display_framed :=
  match goal with
  | |- context [refreshDisplay ?i ?s] =>
      let d := fresh "d" in
      let o := fresh "o" in
      let E := fresh "E" in
      let F := fresh "F" in
      destruct (refreshDisplay_frame i s) as (d & o & E & F);
      rewrite E; clear E; fields
  end.

Ltac debounce_framed :=
  match goal with
  | |- context [debounce ?i ?s] =>
      let d := fresh "d" in
      let l := fresh "l" in
      let b := fresh "b" in
      let E := fresh "E" in
      destruct (debounce_frame i s) as (d & l & b & E);
      rewrite E; clear E; fields
  end.

Ltac control_pass :=
  unfold loop; cbv zeta;
  sensor_block; repeat display_framed; phase_block; cancel_block;
  repeat debounce_framed; safety_block; try reflexivity.

Section Locality.

Context {tc : Thermocouple}.

(** The last block touches the SSR pin and the log only. *)
Lemma ensureSsrLow_frame s :
  exists v o,
    ensureSsrLow s =
      mkState (nextRead s) (nextDisplay s) (phaseStartTime s) (temp s)
        (phaseStartTemp s) (buzzerPeriod s) (reflowPhase s) (ovenStatus s)
        (debounceState s) (lastDebounceTime s) (buttonStatus s)
        v (buzzer s) (ledRed s) o.
Proof.
  destruct s. safety_block; do 2 eexists; reflexivity.
Qed.

(** The first four blocks leave the debounce variables alone. *)
Lemma control_frame i s :
  debounceState
    (cancelCheck (reflowStateMachine i (refreshDisplay i (readSensor i s))))
  = debounceState s
  /\ lastDebounceTime
       (cancelCheck (reflowStateMachine i (refreshDisplay i (readSensor i s))))
     = lastDebounceTime s
  /\ buttonStatus
       (cancelCheck (reflowStateMachine i (refreshDisplay i (readSensor i s))))
     = buttonStatus s.
Proof.
  destruct s. repeat split.
  all: sensor_block; display_framed; phase_block; cancel_block;
    reflexivity.
Qed.

(** The debounce block reads its own variables only. *)
Lemma debounce_local i s s' :
  debounceState s = debounceState s' ->
  lastDebounceTime s = lastDebounceTime s' ->
  buttonStatus s = buttonStatus s' ->
  debounceState (debounce i s) = debounceState (debounce i s')
  /\ lastDebounceTime (debounce i s) = lastDebounceTime (debounce i s')
  /\ buttonStatus (debounce i s) = buttonStatus (debounce i s').
Proof.
  destruct s, s'; fields. intros; subst.
  repeat split; debounce_block; reflexivity.
Qed.

Lemma loop_debounce i s :
  debounceState (loop i s) = debounceState (debounce i s)
  /\ lastDebounceTime (loop i s) = lastDebounceTime (debounce i s)
  /\ buttonStatus (loop i s) = buttonStatus (debounce i s).
Proof.
  unfold loop; cbv zeta.
  destruct (control_frame i s) as (A & B & C).
  destruct (debounce_local i _ _ A B C) as (A' & B' & C').
  rewrite <- A', <- B', <- C'.
  match goal with
  | |- context [ensureSsrLow ?x] =>
      destruct (ensureSsrLow_frame x) as (v & o & E); rewrite E
  end.
  fields. auto.
Qed.

End Locality.

Section Safety.

Context {tc : Thermocouple}.

Lemma ensureSsrLow_safe s :
  ovenStatus (ensureSsrLow s) = OVEN_OFF -> ssr (ensureSsrLow s) = LOW.
Proof. destruct s; safety_block. Qed.

(** C1.  At the end of every pass through [loop], from any state and
    whatever the inputs, the SSR pin is low whenever [ovenStatus] is
    [OVEN_OFF]: the last block of [loop] sees to it on every path. *)
Theorem heater_off_when_oven_off i s :
  ovenStatus (loop i s) = OVEN_OFF -> ssr (loop i s) = LOW.
Proof. unfold loop; cbv zeta. apply ensureSsrLow_safe. Qed.

End Safety.

Section Overrides.

Context {tc : Thermocouple}.


(** C3.  When the sensor is read and answers one of the three fault
    codes, the phase is Error and the oven status off as soon as the
    sensor block is over, before the state machine runs, whatever the
    phase was, and they still are at the end of the pass, with the SSR
    low.  In Error, one read without a fault code brings the phase back
    to Idle in that same pass. *)
Theorem sensor_fault_forces_error i s :
  readDue i s = true ->
  (Double.eq (tc_read i) FAULT_OPEN = true
   \/ Double.eq (tc_read i) FAULT_SHORT_GND = true
   \/ Double.eq (tc_read i) FAULT_SHORT_VCC = true ->
   (reflowPhase (readSensor i s) = REFLOW_PHASE_ERROR
    /\ ovenStatus (readSensor i s) = OVEN_OFF)
   /\ reflowPhase (loop i s) = REFLOW_PHASE_ERROR
   /\ ovenStatus (loop i s) = OVEN_OFF
   /\ ssr (loop i s) = LOW)
  /\ (thermocoupleProblem (tc_read i) = false ->
      reflowPhase s = REFLOW_PHASE_ERROR ->
      reflowPhase (loop i s) = REFLOW_PHASE_IDLE).
Proof.
  unfold readDue. destruct s; fields. intros D. split.
  - intros F.
    assert (F' : thermocoupleProblem (tc_read i) = true).
    { unfold thermocoupleProblem. rewrite !orb_true_iff. tauto. }
    clear F. split.
    + unfold readSensor; fields. rewrite D, F'. fields. auto.
    + repeat split; control_pass.
  - intros F E. subst. control_pass.
Qed.

(** C4, as amended.  A validated press seen in a pass that starts in
    Preheat, Soak, Reflow or Peak leaves the SSR low and the oven status
    off at the end of that pass.  The phase is then Idle, unless a fault
    code is read in that pass (Error), or the pass starts in Peak with
    the peak period over (the state machine has switched the oven off
    already, and the phase is Cool).  A press seen in TooHot, Error, Cool
    or Complete does not change the phase the pass ends in. *)
Theorem press_cancels_running_process i s :
  buttonStatus s = BUTTON_1 ->
  (heating (reflowPhase s) = true ->
   ssr (loop i s) = LOW /\ ovenStatus (loop i s) = OVEN_OFF
   /\ (faultRead i s = false ->
       (reflowPhase s = REFLOW_PHASE_PEAK ->
        (millis (ms_phase i) >? Word32.add (phaseStartTime s) PEAK_PERIOD)
        = false) ->
       reflowPhase (loop i s) = REFLOW_PHASE_IDLE)
   /\ (faultRead i s = true ->
       reflowPhase (loop i s) = REFLOW_PHASE_ERROR)
   /\ (faultRead i s = false ->
       reflowPhase s = REFLOW_PHASE_PEAK ->
       (millis (ms_phase i) >? Word32.add (phaseStartTime s) PEAK_PERIOD)
       = true ->
       reflowPhase (loop i s) = REFLOW_PHASE_COOL))
  /\ (In (reflowPhase s)
        [REFLOW_PHASE_TOO_HOT; REFLOW_PHASE_ERROR; REFLOW_PHASE_COOL;
         REFLOW_PHASE_COMPLETE] ->
      reflowPhase (loop i s)
      = reflowPhase (loop i (set_buttonStatus BUTTON_NONE s))
      /\ ovenStatus (loop i s) = OVEN_OFF).
Proof.
  unfold faultRead, readDue. destruct s as [? ? ? ? ? ? p ? ? ? ? ? ? ? ?].
  fields. intros B; subst. split.
  - intros H.
    destruct p; try discriminate H; clear H.
    all: repeat split.
    all: try (intros F P; try specialize (P eq_refl)).
    all: try (intros F).
    all: try (intros P E; try discriminate P).
    all: control_pass.
    all: cbn [andb] in *; congruence.
  - cbn [In]. intros [H|[H|[H|[H|[]]]]]; subst; split; control_pass.
Qed.

End Overrides.

Section Table.

Context {tc : Thermocouple}.

(** C10.  A validated press seen in Idle below the room temperature is
    not taken as a cancel in the same pass: the state machine leaves
    Preheat with the oven status still off, the cancel block changes
    nothing, and the pass ends in Preheat with the time and temperature of
    the start captured. *)
Theorem start_press_is_not_a_cancel i s :
  reflowPhase s = REFLOW_PHASE_IDLE ->
  buttonStatus s = BUTTON_1 ->
  faultRead i s = false ->
  Double.lt (sampled i s) (Double.of_Z ROOM_TEMPERATURE) = true ->
  let s1 := reflowStateMachine i (refreshDisplay i (readSensor i s)) in
  (reflowPhase s1 = REFLOW_PHASE_PREHEAT /\ ovenStatus s1 = OVEN_OFF
   /\ cancelCheck s1 = s1)
  /\ reflowPhase (loop i s) = REFLOW_PHASE_PREHEAT
  /\ ovenStatus (loop i s) = OVEN_OFF
  /\ phaseStartTime (loop i s) = millis (ms_phase i)
  /\ phaseStartTemp (loop i s) = sampled i s
  /\ ssr (loop i s) = LOW.
Proof.
  unfold faultRead, sampled, readDue. destruct s; fields.
  intros P B F T; subst. apply lt_not_ge in T.
  repeat split.
  1-3: sensor_block; repeat display_framed; phase_block;
       cancel_block; cbn [andb] in *; try congruence; reflexivity.
  all: control_pass; cbn [andb] in *; congruence.
Qed.



(** At whole seconds the limit of the ramp rule is exact: [k] seconds
    after the start of the phase it is [3 * k] degrees, whether the
    product by [RAMPUP] is taken first, as the sketch does, or the
    quotient by 1000.  Checked for the first ten minutes of a phase. *)
Lemma ramp_limit_whole_seconds k :
  0 <= k <= 600 ->
  Double.eq
    (Double.div (Double.mul (Double.of_Z (1000 * k)) RAMPUP)
       (Double.of_Z 1000))
    (Double.of_Z (3 * k)) = true
  /\ Double.eq
       (Double.mul (Double.div (Double.of_Z (1000 * k)) (Double.of_Z 1000))
          RAMPUP)
       (Double.of_Z (3 * k)) = true.
Proof.
  intros K.
  assert (A : forallb
                (fun n =>
                   let k := Z.of_nat n in
                   Double.eq
                     (Double.div
                        (Double.mul (Double.of_Z (1000 * k)) RAMPUP)
                        (Double.of_Z 1000))
                     (Double.of_Z (3 * k))
                   && Double.eq
                        (Double.mul
                           (Double.div (Double.of_Z (1000 * k))
                              (Double.of_Z 1000))
                           RAMPUP)
                        (Double.of_Z (3 * k)))
                (seq 0 601) = true) by (vm_compute; reflexivity).
  rewrite forallb_forall in A.
  specialize (A (Z.to_nat k)). cbv zeta in A.
  rewrite Z2Nat.id in A by lia.
  apply andb_true_iff, A, in_seq. lia.
Qed.


End Table.

Section Debounce.

Context {tc : Thermocouple}.

Lemma sub_signed a b : Word32.sub a (Word32.signed b) = Word32.sub a b.
Proof.
  unfold Word32.sub, Word32.signed, Word32.wrap. cbv zeta.
  destruct (b mod Word32.modulus <? 2 ^ 31).
  - apply Zminus_mod_idemp_r.
  - replace (a - (b mod Word32.modulus - Word32.modulus))
      with (a - b mod Word32.modulus + 1 * Word32.modulus) by ring.
    rewrite Z_mod_plus_full. apply Zminus_mod_idemp_r.
Qed.

Lemma run_cons i l s : run s (i :: l) = run (loop i s) l.
Proof. reflexivity. Qed.

Lemma events_cons i l s :
  events s (i :: l) = buttonStatus (loop i s) :: events (loop i s) l.
Proof. reflexivity. Qed.

Lemma events_app l1 l2 s :
  events s (l1 ++ l2) = events s l1 ++ events (run s l1) l2.
Proof.
  revert s; induction l1 as [|i l1 IH]; intros s.
  - reflexivity.
  - rewrite <- app_comm_cons, !events_cons, run_cons, IH. reflexivity.
Qed.

Lemma run_app l1 l2 s : run s (l1 ++ l2) = run (run s l1) l2.
Proof.
  revert s; induction l1 as [|i l1 IH]; intros s.
  - reflexivity.
  - rewrite <- app_comm_cons, !run_cons. apply IH.
Qed.

(** The seven moves of the debounce state machine, for a whole pass. *)

Lemma idle_pressed i s :
  debounceState s = DEBOUNCE_STATE_IDLE -> adc i = 0 ->
  debounceState (loop i s) = DEBOUNCE_STATE_CHECK
  /\ lastDebounceTime (loop i s) = Word32.signed (millis (ms_debounce i))
  /\ buttonStatus (loop i s) = BUTTON_NONE.
Proof.
  destruct (loop_debounce i s) as (A & B & C). rewrite A, B, C.
  destruct s; fields. intros D P; subst. rewrite <- Z.eqb_eq in P.
  repeat split; debounce_block.
Qed.

Lemma idle_released i s :
  debounceState s = DEBOUNCE_STATE_IDLE -> adc i <> 0 ->
  debounceState (loop i s) = DEBOUNCE_STATE_IDLE
  /\ buttonStatus (loop i s) = BUTTON_NONE.
Proof.
  destruct (loop_debounce i s) as (A & B & C). rewrite A, C.
  destruct s; fields. intros D P; subst. rewrite <- Z.eqb_neq in P.
  repeat split; debounce_block.
Qed.

Lemma check_within i s :
  debounceState s = DEBOUNCE_STATE_CHECK -> adc i = 0 ->
  Word32.sub (millis (ms_debounce i)) (lastDebounceTime s)
  <= DEBOUNCE_PERIOD_MIN ->
  debounceState (loop i s) = DEBOUNCE_STATE_CHECK
  /\ lastDebounceTime (loop i s) = lastDebounceTime s
  /\ buttonStatus (loop i s) = buttonStatus s.
Proof.
  destruct (loop_debounce i s) as (A & B & C). rewrite A, B, C.
  destruct s; fields. intros D P W; subst.
  rewrite <- Z.eqb_eq in P. rewrite <- gtb_false in W.
  repeat split; debounce_block.
Qed.

Lemma check_validated i s :
  debounceState s = DEBOUNCE_STATE_CHECK -> adc i = 0 ->
  DEBOUNCE_PERIOD_MIN
  < Word32.sub (millis (ms_debounce i)) (lastDebounceTime s) ->
  debounceState (loop i s) = DEBOUNCE_STATE_RELEASE
  /\ buttonStatus (loop i s) = buttonStatus s.
Proof.
  destruct (loop_debounce i s) as (A & B & C). rewrite A, C.
  destruct s; fields. intros D P W; subst.
  rewrite <- Z.eqb_eq in P. rewrite <- gtb_true in W.
  repeat split; debounce_block.
Qed.

Lemma check_released i s :
  debounceState s = DEBOUNCE_STATE_CHECK -> adc i <> 0 ->
  debounceState (loop i s) = DEBOUNCE_STATE_IDLE
  /\ buttonStatus (loop i s) = buttonStatus s.
Proof.
  destruct (loop_debounce i s) as (A & B & C). rewrite A, C.
  destruct s; fields. intros D P; subst. rewrite <- Z.eqb_neq in P.
  repeat split; debounce_block.
Qed.

Lemma release_held i s :
  debounceState s = DEBOUNCE_STATE_RELEASE -> adc i = 0 ->
  debounceState (loop i s) = DEBOUNCE_STATE_RELEASE
  /\ buttonStatus (loop i s) = buttonStatus s.
Proof.
  destruct (loop_debounce i s) as (A & B & C). rewrite A, C.
  destruct s; fields. intros D P; subst.
  assert (G : (adc i >? 0) = false) by (apply gtb_false; lia).
  repeat split; debounce_block.
Qed.

Lemma release_released i s :
  debounceState s = DEBOUNCE_STATE_RELEASE -> 0 < adc i ->
  debounceState (loop i s) = DEBOUNCE_STATE_IDLE
  /\ buttonStatus (loop i s) = BUTTON_1.
Proof.
  destruct (loop_debounce i s) as (A & B & C). rewrite A, C.
  destruct s; fields. intros D P; subst. rewrite <- gtb_true in P.
  repeat split; debounce_block.
Qed.

(** A pass that reads the input released leaves the debounce machine
    idle, whatever its state was: every press starts from there. *)
Lemma released_resets_debounce i s :
  0 < adc i -> debounceState (loop i s) = DEBOUNCE_STATE_IDLE.
Proof.
  intros R. assert (N : adc i <> 0) by lia.
  destruct (debounceState s) eqn:D.
  - apply (idle_released i s D N).
  - apply (check_released i s D N).
  - apply (release_released i s D R).
Qed.

(** While the button stays down. *)

Lemma held_in_release held : forall s,
  debounceState s = DEBOUNCE_STATE_RELEASE ->
  Forall (fun i => adc i = 0) held ->
  events s held = repeat (buttonStatus s) (List.length held)
  /\ debounceState (run s held) = DEBOUNCE_STATE_RELEASE
  /\ buttonStatus (run s held) = buttonStatus s.
Proof.
  induction held as [|i held IH]; intros s D H; cbn [List.length repeat].
  - auto.
  - rewrite events_cons, run_cons.
    inversion H as [|? ? P H']; subst.
    destruct (release_held i s D P) as (D1 & B1).
    destruct (IH (loop i s) D1 H') as (E & D2 & B2).
    rewrite E, D2, B2, B1. auto.
Qed.

Lemma held_within_window held : forall s,
  debounceState s = DEBOUNCE_STATE_CHECK ->
  Forall (fun i => adc i = 0) held ->
  Forall (fun i =>
            Word32.sub (millis (ms_debounce i)) (lastDebounceTime s)
            <= DEBOUNCE_PERIOD_MIN) held ->
  events s held = repeat (buttonStatus s) (List.length held)
  /\ debounceState (run s held) = DEBOUNCE_STATE_CHECK
  /\ buttonStatus (run s held) = buttonStatus s.
Proof.
  induction held as [|i held IH]; intros s D H W;
    cbn [List.length repeat].
  - auto.
  - rewrite events_cons, run_cons.
    inversion H as [|? ? P H']; inversion W as [|? ? Q W']; subst.
    destruct (check_within i s D P Q) as (D1 & L1 & B1).
    rewrite <- L1 in W'.
    destruct (IH (loop i s) D1 H' W') as (E & D2 & B2).
    rewrite E, D2, B2, B1. auto.
Qed.

Lemma held_beyond_window held : forall s,
  debounceState s = DEBOUNCE_STATE_CHECK ->
  Forall (fun i => adc i = 0) held ->
  Exists (fun i =>
            DEBOUNCE_PERIOD_MIN
            < Word32.sub (millis (ms_debounce i)) (lastDebounceTime s)) held ->
  events s held = repeat (buttonStatus s) (List.length held)
  /\ debounceState (run s held) = DEBOUNCE_STATE_RELEASE
  /\ buttonStatus (run s held) = buttonStatus s.
Proof.
  induction held as [|i held IH]; intros s D H X;
    cbn [List.length repeat].
  - inversion X.
  - rewrite events_cons, run_cons.
    inversion H as [|? ? P H']; subst.
    destruct (Z_lt_le_dec DEBOUNCE_PERIOD_MIN
                (Word32.sub (millis (ms_debounce i)) (lastDebounceTime s)))
      as [Q|Q].
    + destruct (check_validated i s D P Q) as (D1 & B1).
      destruct (held_in_release held (loop i s) D1 H') as (E & D2 & B2).
      rewrite E, D2, B2, B1. auto.
    + destruct (check_within i s D P Q) as (D1 & L1 & B1).
      assert (X' : Exists (fun i0 =>
                 DEBOUNCE_PERIOD_MIN
                 < Word32.sub (millis (ms_debounce i0))
                     (lastDebounceTime (loop i s))) held).
      { rewrite L1. inversion X; subst; [lia|assumption]. }
      destruct (IH (loop i s) D1 H' X') as (E & D2 & B2).
      rewrite E, D2, B2, B1. auto.
Qed.

(** C8, as amended.  A press starts at the pass [i0] where the idle
    debounce machine first reads the input pressed, goes on through the
    passes [held] that read it pressed, and ends at the pass [rel] that
    reads it released.  If no pass of [held] comes more than 50 ms after
    [i0], no pass of the press ends with [BUTTON_1].  If one does, exactly
    one pass ends with [BUTTON_1], the pass [rel] where the release is
    seen, however long the press, and the pass after has [BUTTON_NONE]
    again. *)
Theorem one_event_per_validated_press s i0 held rel :
  debounceState s = DEBOUNCE_STATE_IDLE ->
  adc i0 = 0 ->
  Forall (fun i => adc i = 0) held ->
  0 < adc rel ->
  let elapsed i :=
    Word32.sub (millis (ms_debounce i)) (millis (ms_debounce i0)) in
  (Forall (fun i => elapsed i <= DEBOUNCE_PERIOD_MIN) held ->
   events s (i0 :: held ++ [rel])
   = repeat BUTTON_NONE (S (List.length held)) ++ [BUTTON_NONE])
  /\ (Exists (fun i => DEBOUNCE_PERIOD_MIN < elapsed i) held ->
      events s (i0 :: held ++ [rel])
      = repeat BUTTON_NONE (S (List.length held)) ++ [BUTTON_1]
      /\ forall i,
           buttonStatus (loop i (run s (i0 :: held ++ [rel]))) = BUTTON_NONE).
Proof.
  intros D P H R elapsed.
  destruct (idle_pressed i0 s D P) as (D1 & L1 & B1).
  assert (EL : forall i,
             Word32.sub (millis (ms_debounce i))
               (lastDebounceTime (loop i0 s)) = elapsed i).
  { intros i. rewrite L1. apply sub_signed. }
  rewrite events_cons, run_cons, events_app, run_app, B1.
  rewrite !events_cons. cbn [events repeat app]. split.
  - intros W.
    destruct (held_within_window held (loop i0 s) D1 H) as (E & D2 & B2).
    { eapply Forall_impl; [|exact W]. intros i Q; cbv beta in Q.
      rewrite EL. exact Q. }
    assert (N : adc rel <> 0) by lia.
    destruct (check_released rel _ D2 N) as (D3 & B3).
    rewrite E, B3, B2, B1. reflexivity.
  - intros X.
    destruct (held_beyond_window held (loop i0 s) D1 H) as (E & D2 & B2).
    { eapply Exists_impl; [|exact X]. intros i Q; cbv beta in Q.
      rewrite EL. exact Q. }
    destruct (release_released rel _ D2 R) as (D3 & B3).
    rewrite E, B3, B1. split; [reflexivity|].
    intros i.
    destruct (Z.eq_dec (adc i) 0) as [Z|Z].
    + apply (idle_pressed i _ D3 Z).
    + apply (idle_released i _ D3 Z).
Qed.

End Debounce.

Section Buzzer.

Context {tc : Thermocouple}.









End Buzzer.

(** ** Further properties of the sketch *)

Lemma ge_not_lt a b : Double.ge a b = true -> Double.lt a b = false.
Proof.
  unfold Double.lt, Double.ge, SFltb, SFleb.
  rewrite (SFcompare_antisym a b).
  destruct (SFcompare a b) as [[]|]; cbn; congruence.
Qed.

Lemma ssrLevel_filter l :
  flat_map ssrLevel (filter is_ssr_write l) = flat_map ssrLevel l.
Proof.
  induction l as [|o l IH]; [reflexivity|].
  destruct o as [[] v| | | | | | |]; cbn [filter is_ssr_write flat_map ssrLevel app];
    rewrite ?IH; reflexivity.
Qed.

Lemma ssrLevels_quiet o l :
  filter is_ssr_write o = [] ->
  flat_map ssrLevel (o ++ l) = flat_map ssrLevel l.
Proof.
  intros F. rewrite flat_map_app, <- (ssrLevel_filter o), F. reflexivity.
Qed.

Ltac levels :=
  cbn [flat_map ssrLevel app];
  repeat match goal with
         | F : filter is_ssr_write ?o = [] |- _ =>
             rewrite (ssrLevels_quiet o _ F)
         end.

Section Profile.

Context {tc : Thermocouple}.

(** X1.  One pass moves the phase along an arrow of the profile only:
    Idle to Preheat or TooHot, each heating phase to the next one, Peak to
    Cool, Cool to Complete, Complete, TooHot and Error to Idle, a cancel
    from a heating phase to Idle, and a fault from anywhere to Error.  No
    pass skips a phase, and nothing leaves Cool but its threshold or a
    fault. *)
Theorem phase_moves_along_profile i s :
  edge (reflowPhase s) (reflowPhase (loop i s)) = true.
Proof.
  destruct s as [? ? ? ? ? ? p ? ? ? ? ? ? ? ?].
  destruct p; control_pass.
Qed.

(** X3.  With the sample at 50 degrees or above, a pass from Idle or
    TooHot ends in TooHot with the oven off, whatever the button event,
    and writes the SSR pin low once.  TooHot is left for Idle exactly when
    the sample is below 50 degrees, and never for Preheat: a press made
    while the oven is too hot is lost. *)
Theorem hot_oven_cannot_start i s :
  reflowPhase s = REFLOW_PHASE_IDLE \/ reflowPhase s = REFLOW_PHASE_TOO_HOT ->
  faultRead i s = false ->
  (Double.ge (sampled i s) (Double.of_Z ROOM_TEMPERATURE) = true ->
   reflowPhase (loop i s) = REFLOW_PHASE_TOO_HOT
   /\ ovenStatus (loop i s) = OVEN_OFF
   /\ phaseStartTime (loop i s) = phaseStartTime s
   /\ ssrLevels (loop i s) = LOW :: ssrLevels s)
  /\ (reflowPhase s = REFLOW_PHASE_TOO_HOT ->
      (reflowPhase (loop i s) = REFLOW_PHASE_IDLE
       <-> Double.lt (sampled i s) (Double.of_Z ROOM_TEMPERATURE) = true)
      /\ reflowPhase (loop i s) <> REFLOW_PHASE_PREHEAT).
Proof.
  unfold faultRead, sampled, readDue, ssrLevels.
  destruct s as [? ? ? ? ? ? p ? ? ? ? ? ? ? ?]; fields.
  intros P F. split.
  - intros T. pose proof (ge_not_lt _ _ T) as T'.
    destruct P; subst p; (split; [|split; [|split]]);
      revert F T T'; control_pass; cbn [andb]; intros; try congruence.
    all: levels; reflexivity.
  - intros Q; subst p. split; [|].
    + revert F; control_pass; cbn [andb]; close.
    + revert F; control_pass; cbn [andb]; intros; congruence.
Qed.

(** X4.  The row of Peak.  After the 50 s of Peak, on the wrapped 32-bit
    deadline, the pass ends in Cool with the oven off and the heater low,
    whatever the button event; the phase context is the entry time and the
    sample.  Before that, unless cancelled, the pass stays in Peak with the
    oven on and the heater high exactly when the sample is below 237
    degrees. *)
Theorem peak_rule i s :
  reflowPhase s = REFLOW_PHASE_PEAK ->
  faultRead i s = false ->
  let now := millis (ms_phase i) in
  let deadline := Word32.add (phaseStartTime s) PEAK_PERIOD in
  (deadline < now ->
   reflowPhase (loop i s) = REFLOW_PHASE_COOL
   /\ ovenStatus (loop i s) = OVEN_OFF
   /\ ssr (loop i s) = LOW
   /\ phaseStartTime (loop i s) = millis (ms_entry i)
   /\ phaseStartTemp (loop i s) = sampled i s)
  /\ (now <= deadline ->
      buttonStatus s <> BUTTON_1 ->
      reflowPhase (loop i s) = REFLOW_PHASE_PEAK
      /\ ovenStatus (loop i s) = OVEN_ON
      /\ (ssr (loop i s) = HIGH
          <-> Double.lt (sampled i s) (Double.of_Z PEAK_TEMPERATURE) = true)
      /\ phaseStartTime (loop i s) = phaseStartTime s
      /\ phaseStartTemp (loop i s) = phaseStartTemp s).
Proof.
  cbv zeta. unfold faultRead, sampled, readDue.
  destruct s as [? ? ? ? ? ? p ? ? ? ? ? ? ? ?]; fields.
  intros P F; subst p. split.
  - intros L; apply gtb_true in L.
    repeat split; revert L F; control_pass; cbn [andb]; close.
  - intros L B; apply gtb_false in L.
    (split; [|split; [|split; [|split]]]);
      revert L F; control_pass; cbn [andb]; close.
Qed.

(** X5.  A pass that enters Preheat, Soak, Reflow, Peak or Cool captures
    the sample as the start temperature of the phase and a [millis()] of
    the pass as its start time: the one of the period test on leaving Soak
    and Peak is not reused, a second call gives the start time.  A pass
    that keeps the phase keeps both. *)
Theorem phase_entry_captures_context i s :
  (reflowPhase (loop i s) <> reflowPhase s ->
   In (reflowPhase (loop i s))
     [REFLOW_PHASE_PREHEAT; REFLOW_PHASE_SOAK; REFLOW_PHASE_REFLOW;
      REFLOW_PHASE_PEAK; REFLOW_PHASE_COOL] ->
   phaseStartTemp (loop i s) = sampled i s
   /\ phaseStartTime (loop i s)
      = match reflowPhase s with
        | REFLOW_PHASE_SOAK | REFLOW_PHASE_PEAK => millis (ms_entry i)
        | _ => millis (ms_phase i)
        end)
  /\ (reflowPhase (loop i s) = reflowPhase s ->
      phaseStartTemp (loop i s) = phaseStartTemp s
      /\ phaseStartTime (loop i s) = phaseStartTime s).
Proof.
  unfold sampled, readDue.
  destruct s as [? ? ? ? ? ? p ? ? ? ? ? ? ? ?]; fields.
  split.
  - cbn [In]. destruct p; control_pass; intros; try congruence;
      try tauto; intuition congruence.
  - destruct p; control_pass; intros; try congruence; auto.
Qed.

(** X6.  The buzzer is switched on by one pass only: the one that leaves
    Cool for Complete, with the sample at 100 degrees or below; and
    switched off by one pass only: the one that leaves Complete for Idle
    after the buzzer deadline. *)
Theorem buzzer_changes_only_around_complete i s :
  (buzzer s = LOW -> buzzer (loop i s) = HIGH ->
   reflowPhase s = REFLOW_PHASE_COOL
   /\ faultRead i s = false
   /\ Double.le (sampled i s) (Double.of_Z COOL_TEMPERATURE) = true
   /\ reflowPhase (loop i s) = REFLOW_PHASE_COMPLETE)
  /\ (buzzer s = HIGH -> buzzer (loop i s) = LOW ->
      reflowPhase s = REFLOW_PHASE_COMPLETE
      /\ faultRead i s = false
      /\ buzzerPeriod s < millis (ms_phase i)
      /\ reflowPhase (loop i s) = REFLOW_PHASE_IDLE).
Proof.
  unfold faultRead, sampled, readDue. rewrite <- gtb_true.
  destruct s as [? ? ? ? ? ? p ? ? ? ? ? z ? ?]; fields.
  split; intros B; subst z.
  - destruct p; control_pass; cbn [andb]; intros; try congruence; auto.
  - destruct p; control_pass; cbn [andb]; intros; try congruence; auto.
Qed.

End Profile.

Section Button.

Context {tc : Thermocouple}.

Lemma button_invariant_step i s :
  buttonStatus s <> BUTTON_2 /\
  (buttonStatus s = BUTTON_1 -> debounceState s = DEBOUNCE_STATE_IDLE) ->
  buttonStatus (loop i s) <> BUTTON_2 /\
  (buttonStatus (loop i s) = BUTTON_1 ->
   debounceState (loop i s) = DEBOUNCE_STATE_IDLE).
Proof.
  destruct (loop_debounce i s) as (A & _ & C). rewrite A, C.
  destruct s; fields. intros [N K].
  split; revert N K; debounce_block; intuition congruence.
Qed.

Lemma button_invariant s :
  reachable s ->
  buttonStatus s <> BUTTON_2 /\
  (buttonStatus s = BUTTON_1 -> debounceState s = DEBOUNCE_STATE_IDLE).
Proof.
  induction 1 as [t1 t2|i s R IH].
  - split; [discriminate|reflexivity].
  - apply button_invariant_step, IH.
Qed.

(** X7.  Between two passes the button event is never [BUTTON_2]; a
    [BUTTON_1] lasts one pass, the next pass ends with [BUTTON_NONE]; and
    a pass ends with [BUTTON_1] only from the release state of the
    debouncer with the input reading released. *)
Theorem pressed_event_lasts_one_pass s :
  reachable s ->
  buttonStatus s <> BUTTON_2
  /\ (buttonStatus s = BUTTON_1 ->
      forall i, buttonStatus (loop i s) = BUTTON_NONE)
  /\ (forall i,
        buttonStatus (loop i s) = BUTTON_1 ->
        debounceState s = DEBOUNCE_STATE_RELEASE /\ 0 < adc i).
Proof.
  intros R. destruct (button_invariant s R) as [N K].
  split; [exact N|split].
  - intros B i. specialize (K B).
    destruct (loop_debounce i s) as (_ & _ & C). rewrite C.
    revert K. destruct s; fields. intros ->. debounce_block.
  - intros i. destruct (loop_debounce i s) as (_ & _ & C). rewrite C.
    rewrite <- gtb_true.
    revert N K. destruct s; fields.
    debounce_block; intuition congruence.
Qed.

End Button.

Section Log.

Context {tc : Thermocouple}.

(** What the display block prints is the temperature of the state, and a
    temperature is printed only outside Error or with the oven on. *)
Lemma refreshDisplay_shown i s :
  exists d o,
    refreshDisplay i s =
      mkState (nextRead s) d (phaseStartTime s) (temp s) (phaseStartTemp s)
        (buzzerPeriod s) (reflowPhase s) (ovenStatus s) (debounceState s)
        (lastDebounceTime s) (buttonStatus s) (ssr s) (buzzer s) (ledRed s)
        (o ++ out s)
    /\ Forall (fun t =>
                 t = temp s
                 /\ (reflowPhase s <> REFLOW_PHASE_ERROR
                     \/ ovenStatus s = OVEN_ON))
         (flat_map shownTemp o).
Proof.
  destruct s as [? ? ? ? ? ? ? ? ? ? ? ? ? ? o0]. display_block.
  all: match goal with
       | |- exists d o, mkState _ ?d' _ _ _ _ _ _ _ _ _ _ _ _ ?l = _ /\ _ =>
           let p := written l o0 in exists d', p; split; [reflexivity|]
       end.
  all: cbn [flat_map shownTemp app]; repeat constructor; congruence.
Qed.

(** The blocks after the display print no temperature. *)
Lemma shown_by_display i s :
  shownTemps (loop i s) = shownTemps (refreshDisplay i (readSensor i s)).
Proof.
  unfold shownTemps, loop; cbv zeta.
  match goal with
  | |- context [refreshDisplay i ?x] => generalize (refreshDisplay i x)
  end.
  intros [? ? ? ? ? ? p ? ? ? ? ? ? ? ?].
  destruct p; phase_block; cancel_block; repeat debounce_framed;
    safety_block; reflexivity.
Qed.

Lemma shown_by_sensor i s : shownTemps (readSensor i s) = shownTemps s.
Proof. unfold shownTemps. destruct s. sensor_block; reflexivity. Qed.

Lemma sound_step i s : sound s -> sound (loop i s).
Proof.
  intros (E & O & L). split; [|split].
  - revert E O. clear L.
    destruct s as [? ? ? ? ? ? p ? ? ? ? ? ? ? ?]; fields.
    destruct p; control_pass; intuition congruence.
  - revert E O. clear L.
    destruct s as [? ? ? ? ? ? p ? ? ? ? ? ? ? ?]; fields.
    destruct p; control_pass; intuition congruence.
  - rewrite shown_by_display.
    destruct (refreshDisplay_shown i (readSensor i s)) as (d & o & Q & G).
    rewrite Q. unfold shownTemps; cbn [out].
    rewrite flat_map_app. apply Forall_app. split.
    + eapply Forall_impl; [|exact G]. cbv beta. intros t [-> H].
      revert E O H. clear.
      destruct s as [? ? ? u ? ? ? ? ? ? ? ? ? ? ?]; sensor_block;
        intros E O H;
        first [ reflexivity
              | destruct H; congruence
              | destruct (thermocoupleProblem u) eqn:T; [|reflexivity];
                destruct E as [E _]; specialize (E eq_refl);
                destruct H as [H|H]; [congruence|]; apply O in H;
                congruence ].
    + pose proof (shown_by_sensor i s) as S. unfold shownTemps in S, L.
      rewrite S. exact L.
Qed.

Lemma sound_reachable s :
  thermocoupleProblem (S754_zero false) = false -> reachable s -> sound s.
Proof.
  intros Z. induction 1 as [t1 t2|i s R IH].
  - split; [|split].
    + cbn. rewrite Z. split; discriminate.
    + discriminate.
    + constructor.
  - apply sound_step, IH.
Qed.

(** X8.  Between two passes the phase is Error exactly when the last
    sample is a fault code, provided zero is no fault code; and a pass
    from Error that does not read a good sample stays in Error with the
    oven off and the heater low. *)
Theorem error_exactly_on_fault_sample s :
  thermocoupleProblem (S754_zero false) = false ->
  reachable s ->
  (reflowPhase s = REFLOW_PHASE_ERROR <-> thermocoupleProblem (temp s) = true)
  /\ forall i,
       reflowPhase s = REFLOW_PHASE_ERROR ->
       (readDue i s = true -> thermocoupleProblem (tc_read i) = true) ->
       reflowPhase (loop i s) = REFLOW_PHASE_ERROR
       /\ ovenStatus (loop i s) = OVEN_OFF
       /\ ssr (loop i s) = LOW.
Proof.
  intros Z R. destruct (sound_reachable s Z R) as (E & _ & _).
  split; [symmetry; exact E|].
  intros i P. apply E in P. revert P. unfold readDue.
  destruct s as [? ? ? ? ? ? p ? ? ? ? ? ? ? ?]; fields.
  intros P F. destruct E as [E _]. specialize (E P). subst p.
  repeat split; revert P F; control_pass; intuition congruence.
Qed.

(** X9.  No temperature printed on [Serial] or on the [lcd] is a fault
    code, provided zero is no fault code: the display block runs after the
    sensor block has switched to Error. *)
Theorem no_fault_code_is_shown s :
  thermocoupleProblem (S754_zero false) = false ->
  reachable s ->
  Forall (fun t => thermocoupleProblem t = false) (shownTemps s).
Proof.
  intros Z R. apply (sound_reachable s Z R).
Qed.

End Log.

Section Unpressed.

Context {tc : Thermocouple}.

Lemma neverHeated_step i s :
  buttonStatus s <> BUTTON_1 -> neverHeated s -> neverHeated (loop i s).
Proof.
  unfold neverHeated, ssrLevels.
  destruct s as [? ? ? ? ? ? p ? ? ? b ? ? ? ?]; fields.
  intros B (H & O & S & L); subst.
  destruct p; try discriminate H; clear H.
  all: destruct b; try congruence; clear B.
  all: control_pass.
  all: repeat split; levels; repeat constructor; assumption.
Qed.

Lemma neverHeated_run l : forall s,
  buttonStatus s <> BUTTON_1 ->
  Forall (fun b => b <> BUTTON_1) (events s l) ->
  neverHeated s -> neverHeated (run s l).
Proof.
  induction l as [|i l IH]; intros s B A Q.
  - exact Q.
  - rewrite run_cons. rewrite events_cons in A. inversion A; subst.
    apply IH; [assumption|assumption|].
    apply neverHeated_step; assumption.
Qed.

(** X2.  As long as no pass since [setup] has ended with a validated
    press, the phase is not a heating one, the oven is off, and the SSR
    pin has only ever been written low. *)
Theorem no_heating_without_a_validated_press t1 t2 l :
  Forall (fun b => b <> BUTTON_1) (events (setup t1 t2) l) ->
  heating (reflowPhase (run (setup t1 t2) l)) = false
  /\ ovenStatus (run (setup t1 t2) l) = OVEN_OFF
  /\ ssr (run (setup t1 t2) l) = LOW
  /\ Forall (fun v => v = LOW) (ssrLevels (run (setup t1 t2) l)).
Proof.
  intros A. apply neverHeated_run.
  - discriminate.
  - exact A.
  - repeat split. repeat constructor.
Qed.

End Unpressed.

Section Timers.

Context {tc : Thermocouple}.

(** The blocks after the display leave the timers and the sample alone. *)
Lemma control_keeps_timers i s :
  nextRead (ensureSsrLow (debounce i (cancelCheck (reflowStateMachine i s))))
  = nextRead s
  /\ nextDisplay
       (ensureSsrLow (debounce i (cancelCheck (reflowStateMachine i s))))
     = nextDisplay s
  /\ temp (ensureSsrLow (debounce i (cancelCheck (reflowStateMachine i s))))
     = temp s.
Proof.
  destruct s as [? ? ? ? ? ? p ? ? ? ? ? ? ? ?].
  destruct p; repeat split; phase_block; cancel_block;
    repeat debounce_framed; safety_block; reflexivity.
Qed.

Lemma display_timer i s :
  nextRead (refreshDisplay i s) = nextRead s
  /\ nextDisplay (refreshDisplay i s)
     = (if millis (ms_display i) >? nextDisplay s
        then Word32.add (nextDisplay s) DISPLAY_INTERVAL_TIME
        else nextDisplay s)
  /\ temp (refreshDisplay i s) = temp s.
Proof.
  destruct s. repeat split; display_block; reflexivity.
Qed.

Lemma sensor_timer i s :
  nextRead (readSensor i s)
  = (if readDue i s then Word32.add (nextRead s) READ_INTERVAL_TIME
     else nextRead s)
  /\ nextDisplay (readSensor i s) = nextDisplay s
  /\ temp (readSensor i s) = sampled i s.
Proof.
  unfold sampled, readDue.
  destruct s. repeat split; sensor_block; reflexivity.
Qed.

Lemma timers_step i s :
  nextRead (loop i s)
  = (if readDue i s then Word32.add (nextRead s) READ_INTERVAL_TIME
     else nextRead s)
  /\ nextDisplay (loop i s)
     = (if displayDue i s
        then Word32.add (nextDisplay s) DISPLAY_INTERVAL_TIME
        else nextDisplay s)
  /\ temp (loop i s) = sampled i s.
Proof.
  unfold loop, displayDue; cbv zeta.
  destruct (control_keeps_timers i (refreshDisplay i (readSensor i s)))
    as (A & B & C).
  destruct (display_timer i (readSensor i s)) as (A1 & B1 & C1).
  destruct (sensor_timer i s) as (A2 & B2 & C2).
  rewrite A, B, C, A1, B1, C1, A2, B2, C2. auto.
Qed.

Lemma wrap_add n k : Word32.add (Word32.wrap n) k = Word32.wrap (n + k).
Proof. unfold Word32.add, Word32.wrap. apply Zplus_mod_idemp_l. Qed.

Lemma schedule_run l : forall s r d,
  nextRead s = Word32.wrap r ->
  nextDisplay s = Word32.wrap d ->
  nextRead (run s l)
  = Word32.wrap (r + READ_INTERVAL_TIME * sensorReads s l)
  /\ nextDisplay (run s l)
     = Word32.wrap (d + DISPLAY_INTERVAL_TIME * displayRefreshes s l).
Proof.
  induction l as [|i l IH]; intros s r d R D.
  - cbn [run sensorReads displayRefreshes]. rewrite !Z.mul_0_r, !Z.add_0_r.
    auto.
  - rewrite run_cons.
    destruct (timers_step i s) as (A & B & _).
    change (sensorReads s (i :: l))
      with ((if readDue i s then 1 else 0) + sensorReads (loop i s) l).
    change (displayRefreshes s (i :: l))
      with ((if displayDue i s then 1 else 0)
            + displayRefreshes (loop i s) l).
    destruct (readDue i s), (displayDue i s).
    all: try rewrite R in A; try rewrite D in B;
      try rewrite wrap_add in A; try rewrite wrap_add in B.
    all: destruct (IH (loop i s) _ _ A B) as (E1 & E2).
    all: rewrite E1, E2; split; f_equal; ring.
Qed.

(** X10.  The sensor and display timers advance by exactly one period
    each time they fire and are never set from the clock again: after any
    run, each is the time [setup] gave it plus its period times the number
    of passes in which it fired, modulo [2 ^ 32]. *)
Theorem timers_keep_their_period t1 t2 l :
  nextRead (run (setup t1 t2) l)
  = Word32.wrap
      (t1 + READ_INTERVAL_TIME * sensorReads (setup t1 t2) l)
  /\ nextDisplay (run (setup t1 t2) l)
     = Word32.wrap
         (t2 + DISPLAY_INTERVAL_TIME * displayRefreshes (setup t1 t2) l).
Proof. apply schedule_run; reflexivity. Qed.

End Timers.

Section Rollover.

Context {tc : Thermocouple}.

Lemma elapsed_across_rollover t d :
  0 <= d < 2 ^ 32 ->
  Word32.sub (millis (t + d)) (Word32.signed (millis t)) = d.
Proof.
  intros D. rewrite sub_signed. unfold Word32.sub, millis, Word32.wrap.
  rewrite <- Zminus_mod.
  replace (t + d - t) with d by ring.
  apply Z.mod_small. exact D.
Qed.

(** X11.  The debounce time is measured right across the rollover of
    the millisecond counter: a press seen at any uptime and still seen [d]
    milliseconds later is validated exactly when [d] exceeds 50. *)
Theorem debounce_measures_across_rollover i0 i s d :
  debounceState s = DEBOUNCE_STATE_IDLE ->
  adc i0 = 0 -> adc i = 0 ->
  0 <= d < 2 ^ 32 ->
  ms_debounce i = ms_debounce i0 + d ->
  (debounceState (loop i (loop i0 s)) = DEBOUNCE_STATE_RELEASE
   <-> DEBOUNCE_PERIOD_MIN < d)
  /\ (debounceState (loop i (loop i0 s)) = DEBOUNCE_STATE_CHECK
      <-> d <= DEBOUNCE_PERIOD_MIN).
Proof.
  intros S P0 P D T.
  destruct (idle_pressed i0 s S P0) as (C & L & _).
  pose proof (elapsed_across_rollover (ms_debounce i0) d D) as E.
  rewrite <- T, <- L in E.
  destruct (Z_lt_le_dec DEBOUNCE_PERIOD_MIN d) as [Q|Q].
  - destruct (check_validated i (loop i0 s) C P) as (R & _).
    { rewrite E. exact Q. }
    rewrite R. split; split; intros; try congruence; try lia; auto.
  - destruct (check_within i (loop i0 s) C P) as (R & _).
    { rewrite E. exact Q. }
    rewrite R. split; split; intros; try congruence; try lia; auto.
Qed.

Lemma wrapped_deadline start period now :
  0 <= start <= now -> now < 2 ^ 32 -> 0 <= period < 2 ^ 32 ->
  2 ^ 32 <= start + period ->
  (now >? Word32.add start period) = true.
Proof.
  intros S N P W. apply gtb_true.
  unfold Word32.add, Word32.wrap, Word32.modulus.
  replace (start + period) with (start + period - 2 ^ 32 + 1 * 2 ^ 32)
    by ring.
  rewrite Z_mod_plus_full, Z.mod_small; lia.
Qed.

(** X12.  The deadlines of Soak and Peak are computed modulo [2 ^ 32]:
    when the start time of the phase plus its period passes [2 ^ 32], the
    deadline wraps below the clock and the next pass ends the phase at
    once, Soak for Reflow and Peak for Cool. *)
Theorem period_across_rollover_ends_at_once i s :
  faultRead i s = false ->
  0 <= phaseStartTime s <= millis (ms_phase i) ->
  (reflowPhase s = REFLOW_PHASE_SOAK ->
   2 ^ 32 <= phaseStartTime s + SOAK_PERIOD ->
   buttonStatus s <> BUTTON_1 ->
   reflowPhase (loop i s) = REFLOW_PHASE_REFLOW)
  /\ (reflowPhase s = REFLOW_PHASE_PEAK ->
      2 ^ 32 <= phaseStartTime s + PEAK_PERIOD ->
      reflowPhase (loop i s) = REFLOW_PHASE_COOL
      /\ ssr (loop i s) = LOW).
Proof.
  intros F B.
  assert (M : millis (ms_phase i) < 2 ^ 32).
  { unfold millis, Word32.wrap.
    apply (Z.mod_pos_bound (ms_phase i) Word32.modulus eq_refl). }
  revert F B. unfold faultRead, readDue.
  destruct s as [? ? ? ? ? ? p ? ? ? ? ? ? ? ?]; fields.
  intros F B. split.
  - intros P W K; subst p.
    pose proof (wrapped_deadline _ SOAK_PERIOD _ B M
                  ltac:(unfold SOAK_PERIOD; lia) W) as G.
    revert F G; control_pass; cbn [andb]; close.
  - intros P W; subst p.
    pose proof (wrapped_deadline _ PEAK_PERIOD _ B M
                  ltac:(unfold PEAK_PERIOD; lia) W) as G.
    split; revert F G; control_pass; cbn [andb]; close.
Qed.

End Rollover.

Section Exits.

Context {tc : Thermocouple}.

(** X13.  The exits by temperature.  Without a fault, and without a
    cancel in the heating phases, a pass leaves Preheat for Soak exactly
    when the sample is at 150 degrees or above, Reflow for Peak exactly
    when it is at 237 or above, and Cool for Complete exactly when it is
    at 100 or below; in Cool the heater ends low and the buzzer is kept
    until the threshold is met. *)
Theorem temperature_exits i s :
  faultRead i s = false ->
  (reflowPhase s = REFLOW_PHASE_PREHEAT -> buttonStatus s <> BUTTON_1 ->
   (Double.ge (sampled i s) (Double.of_Z SOAK_TEMPERATURE) = true ->
    reflowPhase (loop i s) = REFLOW_PHASE_SOAK)
   /\ (Double.ge (sampled i s) (Double.of_Z SOAK_TEMPERATURE) = false ->
       reflowPhase (loop i s) = REFLOW_PHASE_PREHEAT))
  /\ (reflowPhase s = REFLOW_PHASE_REFLOW -> buttonStatus s <> BUTTON_1 ->
      (Double.ge (sampled i s) (Double.of_Z PEAK_TEMPERATURE) = true ->
       reflowPhase (loop i s) = REFLOW_PHASE_PEAK)
      /\ (Double.ge (sampled i s) (Double.of_Z PEAK_TEMPERATURE) = false ->
          reflowPhase (loop i s) = REFLOW_PHASE_REFLOW))
  /\ (reflowPhase s = REFLOW_PHASE_COOL ->
      (Double.le (sampled i s) (Double.of_Z COOL_TEMPERATURE) = true ->
       reflowPhase (loop i s) = REFLOW_PHASE_COMPLETE)
      /\ (Double.le (sampled i s) (Double.of_Z COOL_TEMPERATURE) = false ->
          reflowPhase (loop i s) = REFLOW_PHASE_COOL
          /\ buzzer (loop i s) = buzzer s)
      /\ ssr (loop i s) = LOW).
Proof.
  unfold faultRead, sampled, readDue.
  destruct s as [? ? ? ? ? ? p ? ? ? ? ? ? ? ?]; fields.
  intros F. split; [|split]; intros P; subst p.
  all: revert F; control_pass; cbn [andb]; intuition congruence.
Qed.

Lemma complete_buzzer_step i s :
  (reflowPhase s = REFLOW_PHASE_COMPLETE -> buzzer s = HIGH) ->
  reflowPhase (loop i s) = REFLOW_PHASE_COMPLETE -> buzzer (loop i s) = HIGH.
Proof.
  destruct s as [? ? ? ? ? ? p ? ? ? ? ? ? ? ?]; fields.
  destruct p; control_pass; intuition congruence.
Qed.

(** X14.  Between two passes, the buzzer is on whenever the phase is
    Complete. *)
Theorem complete_means_buzzer_on s :
  reachable s -> reflowPhase s = REFLOW_PHASE_COMPLETE -> buzzer s = HIGH.
Proof.
  induction 1 as [t1 t2|i s R IH].
  - discriminate.
  - apply complete_buzzer_step, IH.
Qed.

End Exits.

Section Display.

Context {tc : Thermocouple}.

(** The blocks after the display print no temperature on [Serial] and no
    text on the [lcd], and no block of [loop] writes to the LED. *)
Lemma printed_by_display i s :
  serialTemps (loop i s) = serialTemps (refreshDisplay i (readSensor i s))
  /\ lcdTexts (loop i s) = lcdTexts (refreshDisplay i (readSensor i s))
  /\ ledLevels (loop i s) = ledLevels (refreshDisplay i (readSensor i s))
  /\ ledRed (loop i s) = ledRed (refreshDisplay i (readSensor i s)).
Proof.
  unfold serialTemps, lcdTexts, ledLevels, loop; cbv zeta.
  match goal with
  | |- context [refreshDisplay i ?x] => generalize (refreshDisplay i x)
  end.
  intros [? ? ? ? ? ? p ? ? ? ? ? ? ? ?].
  destruct p; phase_block; cancel_block; repeat debounce_framed;
    safety_block; repeat split; reflexivity.
Qed.

(** X15.  A pass prints one temperature on [Serial] when the display
    timer fires, the oven status it started with is on and no fault code
    is read, and none otherwise; the temperature is the sample of the
    pass.  The status is the one of the pass before: the telemetry starts
    one pass after Preheat is entered. *)
Theorem telemetry_line_per_refresh i s :
  serialTemps (loop i s)
  = match displayDue i s, ovenStatus s, faultRead i s with
    | true, OVEN_ON, false => sampled i s :: serialTemps s
    | _, _, _ => serialTemps s
    end.
Proof.
  rewrite (proj1 (printed_by_display i s)).
  unfold serialTemps, displayDue, faultRead, sampled, readDue.
  destruct s as [? ? ? ? ? ? ? v ? ? ? ? ? ? ?].
  sensor_block; display_block; cbn [andb] in *; try congruence;
    try reflexivity.
  all: destruct v; try congruence; reflexivity.
Qed.


Lemma led_step i s :
  ledRed (loop i s) = ledRed s /\ ledLevels (loop i s) = ledLevels s.
Proof.
  destruct (printed_by_display i s) as (_ & _ & A & B). rewrite A, B.
  unfold ledLevels.
  destruct s. sensor_block; display_block; split; reflexivity.
Qed.

(** X17.  [setup] lights the red LED for the splash and turns it off;
    no pass of [loop] writes to it again. *)
Theorem led_stays_off_after_setup t1 t2 l :
  ledRed (run (setup t1 t2) l) = HIGH
  /\ ledLevels (run (setup t1 t2) l) = [HIGH; LOW].
Proof.
  change (ledRed (run (setup t1 t2) l) = ledRed (setup t1 t2)
          /\ ledLevels (run (setup t1 t2) l) = ledLevels (setup t1 t2)).
  generalize (setup t1 t2).
  induction l as [|i l IH]; intros s.
  - split; reflexivity.
  - rewrite run_cons. destruct (IH (loop i s)) as [A B].
    destruct (led_step i s) as [C D]. rewrite A, B, C, D. split; reflexivity.
Qed.

End Display.


(** ** The scenarios, checked *)

Section Reachability.

Context {tc : Thermocouple}.

Lemma reachable_run l : forall s, reachable s -> reachable (run s l).
Proof.
  induction l as [|i l IH]; intros s R.
  - exact R.
  - rewrite run_cons. apply IH, reachable_loop, R.
Qed.

(** The heater is safe in every state the board can be in between two
    passes, the state [setup] leaves included. *)
Lemma reachable_heater_safe s :
  reachable s -> ovenStatus s = OVEN_OFF -> ssr s = LOW.
Proof.
  intros [t1 t2|i s' R].
  - reflexivity.
  - apply ensureSsrLow_safe.
Qed.

End Reachability.

Import Bench.

Lemma reachable_pressed : reachable pressed.
Proof. apply reachable_run, reachable_setup. Qed.

Lemma reachable_preheating : reachable preheating.
Proof. do 2 apply reachable_loop. exact reachable_pressed. Qed.

Lemma heater_off_when_oven_off_witness :
  ssr (loop (pass 1300 25 1023) pressed) = LOW.
Proof.
  apply heater_off_when_oven_off. vm_compute. reflexivity.
Defined.



Lemma sensor_fault_forces_error_witness :
  ((reflowPhase (readSensor (fault_pass 1500 1023) preheating)
    = REFLOW_PHASE_ERROR
    /\ ovenStatus (readSensor (fault_pass 1500 1023) preheating) = OVEN_OFF)
   /\ reflowPhase (loop (fault_pass 1500 1023) preheating)
      = REFLOW_PHASE_ERROR
   /\ ovenStatus (loop (fault_pass 1500 1023) preheating) = OVEN_OFF
   /\ ssr (loop (fault_pass 1500 1023) preheating) = LOW)
  /\ reflowPhase (loop (pass 1700 25 1023) faulted) = REFLOW_PHASE_IDLE.
Proof.
  split.
  - apply (sensor_fault_forces_error (fault_pass 1500 1023) preheating).
    + vm_compute. reflexivity.
    + left. vm_compute. reflexivity.
  - apply (sensor_fault_forces_error (pass 1700 25 1023) faulted).
    + vm_compute. reflexivity.
    + vm_compute. reflexivity.
    + vm_compute. reflexivity.
Defined.

(** The claim of C4 as it stands fails on a state the board reaches: a
    press validated in Peak and seen by the pass in which the peak period
    runs out leaves the phase in Cool, not in Idle.  It fails as well when
    the pass that sees the press reads a fault code: the phase is Error. *)
Lemma press_at_peak_timeout_ends_in_cool :
  (reachable peak_pressed
   /\ reflowPhase peak_pressed = REFLOW_PHASE_PEAK
   /\ ovenStatus peak_pressed = OVEN_ON
   /\ buttonStatus peak_pressed = BUTTON_1
   /\ reflowPhase (loop (pass 145100 237 1023) peak_pressed)
      = REFLOW_PHASE_COOL)
  /\ (reachable preheat_pressed
      /\ reflowPhase preheat_pressed = REFLOW_PHASE_PREHEAT
      /\ ovenStatus preheat_pressed = OVEN_ON
      /\ buttonStatus preheat_pressed = BUTTON_1
      /\ reflowPhase (loop (fault_pass 1800 1023) preheat_pressed)
         = REFLOW_PHASE_ERROR).
Proof.
  split; (split; [apply reachable_run, reachable_preheating|]);
    vm_compute; auto.
Qed.

Lemma press_cancels_running_process_witness :
  (ssr (loop (pass 1800 25 1023) preheat_pressed) = LOW
   /\ ovenStatus (loop (pass 1800 25 1023) preheat_pressed) = OVEN_OFF
   /\ reflowPhase (loop (pass 1800 25 1023) preheat_pressed)
      = REFLOW_PHASE_IDLE)
  /\ reflowPhase (loop (pass 145100 237 1023) peak_pressed)
     = REFLOW_PHASE_COOL.
Proof.
  split.
  - destruct (press_cancels_running_process (pass 1800 25 1023)
                preheat_pressed) as [H _].
    { vm_compute. reflexivity. }
    destruct H as (A & B & C & _).
    { vm_compute. reflexivity. }
    split; [exact A|split; [exact B|]].
    apply C.
    + vm_compute. reflexivity.
    + vm_compute. discriminate.
  - destruct (press_cancels_running_process (pass 145100 237 1023)
                peak_pressed) as [H _].
    { vm_compute. reflexivity. }
    destruct H as (_ & _ & _ & _ & D).
    { vm_compute. reflexivity. }
    apply D; vm_compute; reflexivity.
Defined.




(** The claim of C8 as it stands fails at its boundary: the input reads
    pressed at 1000 ms and still at 1050 ms, 50 ms later, is released
    after that, and no pass ends with [BUTTON_1]. *)
Lemma press_of_50ms_is_rejected :
  events (setup 0 0) press_50ms = [BUTTON_NONE; BUTTON_NONE; BUTTON_NONE].
Proof. vm_compute. reflexivity. Qed.

Lemma one_event_per_validated_press_witness :
  events (setup 0 0) ([pass 1000 25 0; pass 1050 25 0] ++ [pass 1051 25 1023])
  = [BUTTON_NONE; BUTTON_NONE; BUTTON_NONE]
  /\ events (setup 0 0)
       ([pass 1000 25 0; pass 1020 25 0; pass 1051 25 0; pass 9000 25 0]
        ++ [pass 9100 25 1023])
     = [BUTTON_NONE; BUTTON_NONE; BUTTON_NONE; BUTTON_NONE; BUTTON_1].
Proof.
  split.
  - apply (one_event_per_validated_press (setup 0 0) (pass 1000 25 0)
             [pass 1050 25 0] (pass 1051 25 1023)).
    + reflexivity.
    + reflexivity.
    + repeat constructor.
    + reflexivity.
    + repeat constructor. vm_compute. discriminate.
  - apply (one_event_per_validated_press (setup 0 0) (pass 1000 25 0)
             [pass 1020 25 0; pass 1051 25 0; pass 9000 25 0]
             (pass 9100 25 1023)).
    + reflexivity.
    + reflexivity.
    + repeat constructor.
    + reflexivity.
    + apply Exists_cons_tl, Exists_cons_hd. vm_compute. reflexivity.
Defined.


(** A fault code read during Complete takes the phase to Error with the
    buzzer on, and nothing turns it off when the fault clears: the
    deadline of Complete is only looked at in Complete. *)
Lemma fault_in_complete_leaves_buzzer_on :
  buzzer
    (run (loop completing cooling)
       [fault_pass 200500 1023; pass 200700 25 1023; pass 300000 25 1023])
  = HIGH
  /\ reflowPhase
       (run (loop completing cooling)
          [fault_pass 200500 1023; pass 200700 25 1023; pass 300000 25 1023])
     = REFLOW_PHASE_IDLE.
Proof. vm_compute. auto. Qed.

(** The level kept across the transition can be the high one. *)
Lemma soak_entered_with_heater_on :
  ssr preheating = HIGH /\ ssr soaking = HIGH
  /\ ssr (loop (pass 92001 140 1023) (loop (pass 92000 140 1023) soaking))
     = HIGH.
Proof. vm_compute. auto. Qed.

Lemma start_press_is_not_a_cancel_witness :
  reflowPhase started = REFLOW_PHASE_PREHEAT
  /\ ovenStatus started = OVEN_OFF
  /\ phaseStartTime started = 1300
  /\ phaseStartTemp started = Double.of_Z 25
  /\ ssr started = LOW.
Proof.
  destruct (start_press_is_not_a_cancel (pass 1300 25 1023) pressed)
    as (_ & H).
  - vm_compute. reflexivity.
  - vm_compute. reflexivity.
  - vm_compute. reflexivity.
  - vm_compute. reflexivity.
  - exact H.
Defined.

Lemma reachable_peaking : reachable peaking.
Proof. apply reachable_run, reachable_preheating. Qed.

Lemma reachable_completed : reachable completed.
Proof. apply reachable_loop, reachable_run, reachable_preheating. Qed.

Lemma no_heating_without_a_validated_press_witness :
  heating (reflowPhase (run (setup 0 0) press_50ms)) = false
  /\ ovenStatus (run (setup 0 0) press_50ms) = OVEN_OFF
  /\ ssr (run (setup 0 0) press_50ms) = LOW
  /\ Forall (fun v => v = LOW) (ssrLevels (run (setup 0 0) press_50ms)).
Proof.
  apply (no_heating_without_a_validated_press 0 0 press_50ms).
  vm_compute. repeat constructor; discriminate.
Defined.

Lemma hot_oven_cannot_start_witness :
  (reflowPhase (loop (pass 1000 60 1023) (setup 0 0)) = REFLOW_PHASE_TOO_HOT
   /\ ovenStatus (loop (pass 1000 60 1023) (setup 0 0)) = OVEN_OFF
   /\ phaseStartTime (loop (pass 1000 60 1023) (setup 0 0))
      = phaseStartTime (setup 0 0)
   /\ ssrLevels (loop (pass 1000 60 1023) (setup 0 0))
      = LOW :: ssrLevels (setup 0 0))
  /\ reflowPhase (loop (pass 2000 25 1023) hot) = REFLOW_PHASE_IDLE.
Proof.
  split.
  - apply (hot_oven_cannot_start (pass 1000 60 1023) (setup 0 0)).
    + left. reflexivity.
    + vm_compute. reflexivity.
    + vm_compute. reflexivity.
  - apply (hot_oven_cannot_start (pass 2000 25 1023) hot).
    + right. vm_compute. reflexivity.
    + vm_compute. reflexivity.
    + vm_compute. reflexivity.
    + vm_compute. reflexivity.
Defined.

Lemma peak_rule_witness :
  (reflowPhase (loop (pass 145001 200 1023) peaking) = REFLOW_PHASE_COOL
   /\ ssr (loop (pass 145001 200 1023) peaking) = LOW)
  /\ (reflowPhase (loop (pass 145000 200 1023) peaking) = REFLOW_PHASE_PEAK
      /\ ssr (loop (pass 145000 200 1023) peaking) = HIGH).
Proof.
  split.
  - destruct (peak_rule (pass 145001 200 1023) peaking) as [H _].
    { vm_compute. reflexivity. }
    { vm_compute. reflexivity. }
    destruct H as (A & _ & B & _).
    { vm_compute. reflexivity. }
    split; [exact A|exact B].
  - destruct (peak_rule (pass 145000 200 1023) peaking) as [_ H].
    { vm_compute. reflexivity. }
    { vm_compute. reflexivity. }
    destruct H as (A & _ & B & _).
    { vm_compute. discriminate. }
    { vm_compute. discriminate. }
    split; [exact A|]. apply B. vm_compute. reflexivity.
Defined.

Lemma phase_entry_captures_context_witness :
  phaseStartTemp (loop (pass 2000 150 1023) preheating)
  = sampled (pass 2000 150 1023) preheating
  /\ phaseStartTime (loop (pass 2000 150 1023) preheating)
     = match reflowPhase preheating with
       | REFLOW_PHASE_SOAK | REFLOW_PHASE_PEAK =>
           millis (ms_entry (pass 2000 150 1023))
       | _ => millis (ms_phase (pass 2000 150 1023))
       end.
Proof.
  apply (phase_entry_captures_context (pass 2000 150 1023) preheating).
  - vm_compute. discriminate.
  - vm_compute. auto.
Defined.

Lemma buzzer_changes_only_around_complete_witness :
  (reflowPhase cooling = REFLOW_PHASE_COOL
   /\ faultRead completing cooling = false
   /\ Double.le (sampled completing cooling) (Double.of_Z COOL_TEMPERATURE)
      = true
   /\ reflowPhase (loop completing cooling) = REFLOW_PHASE_COMPLETE)
  /\ (reflowPhase completed = REFLOW_PHASE_COMPLETE
      /\ faultRead (pass 201001 90 1023) completed = false
      /\ buzzerPeriod completed < millis (ms_phase (pass 201001 90 1023))
      /\ reflowPhase (loop (pass 201001 90 1023) completed)
         = REFLOW_PHASE_IDLE).
Proof.
  split.
  - apply (buzzer_changes_only_around_complete completing cooling).
    + vm_compute. reflexivity.
    + vm_compute. reflexivity.
  - apply (buzzer_changes_only_around_complete (pass 201001 90 1023)
             completed).
    + vm_compute. reflexivity.
    + vm_compute. reflexivity.
Defined.

Lemma pressed_event_lasts_one_pass_witness :
  buttonStatus pressed = BUTTON_1
  /\ buttonStatus (loop (pass 1300 25 1023) pressed) = BUTTON_NONE.
Proof.
  split; [vm_compute; reflexivity|].
  destruct (pressed_event_lasts_one_pass pressed) as (_ & H & _).
  - apply reachable_pressed.
  - apply H. vm_compute. reflexivity.
Defined.

Lemma error_exactly_on_fault_sample_witness :
  thermocoupleProblem (temp faulted) = true
  /\ (reflowPhase (loop (fault_pass 1700 1023) faulted) = REFLOW_PHASE_ERROR
      /\ ovenStatus (loop (fault_pass 1700 1023) faulted) = OVEN_OFF
      /\ ssr (loop (fault_pass 1700 1023) faulted) = LOW).
Proof.
  destruct (error_exactly_on_fault_sample faulted) as [E H].
  - vm_compute. reflexivity.
  - apply reachable_loop, reachable_preheating.
  - split.
    + apply E. vm_compute. reflexivity.
    + apply H.
      * vm_compute. reflexivity.
      * intros _. vm_compute. reflexivity.
Defined.

Lemma no_fault_code_is_shown_witness :
  Forall (fun t => thermocoupleProblem t = false) (shownTemps faulted).
Proof.
  apply (no_fault_code_is_shown faulted).
  - vm_compute. reflexivity.
  - apply reachable_loop, reachable_preheating.
Defined.

Lemma debounce_measures_across_rollover_witness :
  debounceState
    (loop (pass 4294967336 25 0) (loop (pass 4294967276 25 0) (setup 0 0)))
  = DEBOUNCE_STATE_RELEASE.
Proof.
  apply (debounce_measures_across_rollover (pass 4294967276 25 0)
           (pass 4294967336 25 0) (setup 0 0) 60).
  - reflexivity.
  - reflexivity.
  - reflexivity.
  - lia.
  - reflexivity.
  - vm_compute. reflexivity.
Defined.

Lemma period_across_rollover_ends_at_once_witness :
  reflowPhase (loop (pass 4294950100 150 1023) late_soak)
  = REFLOW_PHASE_REFLOW.
Proof.
  apply (period_across_rollover_ends_at_once (pass 4294950100 150 1023)
           late_soak).
  - vm_compute. reflexivity.
  - vm_compute. split; discriminate.
  - vm_compute. reflexivity.
  - vm_compute. discriminate.
  - vm_compute. discriminate.
Defined.

Lemma temperature_exits_witness :
  reflowPhase (loop (pass 2000 150 1023) preheating) = REFLOW_PHASE_SOAK
  /\ reflowPhase (loop (pass 1500 30 1023) preheating)
     = REFLOW_PHASE_PREHEAT.
Proof.
  split.
  - apply (temperature_exits (pass 2000 150 1023) preheating).
    + vm_compute. reflexivity.
    + vm_compute. reflexivity.
    + vm_compute. discriminate.
    + vm_compute. reflexivity.
  - apply (temperature_exits (pass 1500 30 1023) preheating).
    + vm_compute. reflexivity.
    + vm_compute. reflexivity.
    + vm_compute. discriminate.
    + vm_compute. reflexivity.
Defined.

Lemma complete_means_buzzer_on_witness : buzzer completed = HIGH.
Proof.
  apply (complete_means_buzzer_on completed).
  - exact reachable_completed.
  - vm_compute. reflexivity.
Defined.
